(** * Video upload pipeline of the media-hosting API

    A shallow embedding of [src/api/videos.ts] (and of the two other
    revisions of the same module kept in the repository), of
    [src/api/thumbnails.ts] and of the configuration record, together
    with the properties the specification states about them.

    Conventions.
    - JavaScript numbers that hold stream dimensions and file sizes are
      integers; they are embedded as [Z].  [Math.floor (a / b)] on such
      integers is [Z.div], which rounds towards minus infinity for every
      non-zero divisor (exact below 2^53, where a correctly rounded
      quotient of two integers cannot cross an integer).
    - A handler is a function of the world (record store, local disk,
      blob store, in-memory thumbnail map) that returns an outcome and
      the world it leaves behind; a thrown exception keeps every side
      effect made before it. *)

From Stdlib Require Import ZArith Ascii String List Lia.
From stdpp Require Import gmap strings.

(* ===================================================================== *)
(** ** Strings and paths *)
(* ===================================================================== *)

Module Str.

(** The double-quote character (code 34). *)
Definition dquote : ascii := "034"%char.

(** [s.split(sep)] for a one-character separator. *)
Fixpoint split_aux (sep : ascii) (s : string) (cur : string) : list string :=
  match s with
  | EmptyString => [String.rev cur]
  | String c rest =>
      if Ascii.eqb c sep then String.rev cur :: split_aux sep rest EmptyString
      else split_aux sep rest (String c cur)
  end.

Definition split (sep : ascii) (s : string) : list string :=
  split_aux sep s EmptyString.

(** Interpolation of a possibly undefined value in a template literal. *)
Definition interp (o : option string) : string :=
  match o with Some s => s | None => "undefined" end.

Fixpoint join (sep : string) (l : list string) : string :=
  match l with
  | [] => ""
  | [x] => x
  | x :: rest => x +:+ sep +:+ join sep rest
  end.

Definition starts_with_slash (s : string) : bool :=
  match s with String c _ => Ascii.eqb c "/"%char | EmptyString => false end.

Fixpoint ends_with_slash (s : string) : bool :=
  match s with
  | EmptyString => false
  | String c EmptyString => Ascii.eqb c "/"%char
  | String _ rest => ends_with_slash rest
  end.

End Str.

(** Model of [node:path] on POSIX ([path.join] and the normalisation it
    ends with): the segments are accumulated on a reversed stack. *)
Module Path.

Definition step (allowAboveRoot : bool) (acc : list string) (seg : string)
  : list string :=
  if String.eqb seg "" || String.eqb seg "." then acc
  else if String.eqb seg ".." then
    match acc with
    | last :: before =>
        if String.eqb last ".." then seg :: acc else before
    | [] => if allowAboveRoot then [seg] else []
    end
  else seg :: acc.

Definition normalizeString (p : string) (allowAboveRoot : bool) : string :=
  Str.join "/" (rev (fold_left (step allowAboveRoot) (Str.split "/" p) [])).

Definition normalize (p : string) : string :=
  if String.eqb p "" then "."
  else
    let isAbsolute := Str.starts_with_slash p in
    let trailingSeparator := Str.ends_with_slash p in
    let q := normalizeString p (negb isAbsolute) in
    if String.eqb q "" then
      (if isAbsolute then "/" else if trailingSeparator then "./" else ".")
    else
      let q := if trailingSeparator then q +:+ "/" else q in
      if isAbsolute then "/" +:+ q else q.

Definition join (args : list string) : string :=
  match filter (fun a => negb (String.eqb a "")) args with
  | [] => "."
  | parts => normalize (Str.join "/" parts)
  end.

End Path.

(* ===================================================================== *)
(** ** The aspect classifier *)
(* ===================================================================== *)

(** The three strings [getVideoAspectRatio] can return. *)
Inductive AspectClass := landscape | portrait | other.

Definition aspectName (c : AspectClass) : string :=
  match c with
  | landscape => "landscape"
  | portrait => "portrait"
  | other => "other"
  end.

#[global] Instance AspectClass_eq_dec : EqDecision AspectClass.
Proof. solve_decision. Defined.

(** The comparison chain that closes [getVideoAspectRatio]:
    [Math.floor(width / height) === Math.floor(16 / 9)], then
    [=== Math.floor(9 / 16)], then the fall-through. *)
Definition classify (width height : Z) : AspectClass :=
  if (width / height =? 16 / 9)%Z then landscape
  else if (width / height =? 9 / 16)%Z then portrait
  else other.


(* ===================================================================== *)
(** ** Data model *)
(* ===================================================================== *)

(** File contents; what matters below is where they are stored. *)
Definition bytes := list Z.

(** [ApiConfig] of the configuration module.  The database handle and
    the blob-store client of the source are the [db] and [bucket]
    components of the world below. *)
Record ApiConfig := {
  jwtSecret : string;
  platform : string;
  filepathRoot : string;
  assetsRoot : string;
  s3Bucket : string;
  s3Region : string;
  s3CfDistribution : string;
  port : string
}.

(** Modelled from the spec: the [Video] type of [db/videos] is not among
    the sources.  Section 3 gives a video record an identifier, an
    owning-user identifier, a playback URL (initially absent) and a
    thumbnail URL; these are also the only fields the handlers touch. *)
Record Video := {
  id : string;
  userID : string;
  videoURL : option string;
  thumbnailURL : option string
}.

(** A row of the record store: a record without its identifier, which
    is the key the row is stored under. *)
Record VideoRow := {
  row_userID : string;
  row_videoURL : option string;
  row_thumbnailURL : option string
}.

Definition row_of (v : Video) : VideoRow :=
  {| row_userID := userID v; row_videoURL := videoURL v;
     row_thumbnailURL := thumbnailURL v |}.

Definition video_of (key : string) (r : VideoRow) : Video :=
  {| id := key; userID := row_userID r; videoURL := row_videoURL r;
     thumbnailURL := row_thumbnailURL r |}.

(** [video.videoURL = url] and [video.thumbnailURL = url], on the object
    [getVideo] returned (the store is untouched until [updateVideo]). *)
Definition set_videoURL (v : Video) (url : string) : Video :=
  {| id := id v; userID := userID v;
     videoURL := Some url; thumbnailURL := thumbnailURL v |}.

Definition set_thumbnailURL (v : Video) (url : string) : Video :=
  {| id := id v; userID := userID v;
     videoURL := videoURL v; thumbnailURL := Some url |}.

(** A [File] of the multipart form.  [file_size] is [file.size]; it is
    kept as a field so that payloads beyond the ceiling can be written
    down without their contents. *)
Record FileField := {
  file_size : Z;
  file_type : string;
  file_data : bytes
}.

(** What [formData.get] can return besides [null]. *)
Inductive FormValue :=
| FormFile (f : FileField)
| FormText (s : string).

Record BunRequest := {
  param_videoId : option string;       (* req.params.videoId *)
  authorization : option string;       (* the Authorization header *)
  form : gmap string FormValue         (* req.formData() *)
}.

(** The [Thumbnail] type of [thumbnails.ts]. *)
Record Thumbnail := {
  data : bytes;
  mediaType : string
}.

(** An object of the blob store: its body and the content type the
    caller gave, if any. *)
Record S3Object := {
  body : bytes;
  contentType : option string
}.

(** Everything a handler can read or change. *)
Record World := {
  db : gmap string VideoRow;               (* the video record store *)
  disk : gmap string bytes;                (* local files, by path *)
  bucket : gmap string S3Object;           (* the blob store, by key *)
  videoThumbnails : gmap string Thumbnail  (* the module-level Map *)
}.

(** The operations on the outside that can be refused. *)
Inductive IoOp :=
| DiskWrite (path : string)
| DiskDelete (path : string)
| S3Put (key : string)
| DbUpdate (videoId : string).

(** What a handler can throw. *)
Inductive Error :=
| BadRequestError (msg : string)
| NotFoundError (msg : string)
| UserForbiddenError (msg : string)
| AuthFailure (msg : string)   (* thrown inside getBearerToken / validateJWT *)
| JsError (msg : string)       (* [new Error(msg)], and JSON.parse's SyntaxError *)
| IoError (op : IoOp).         (* a rejected file-system, store or database call *)

(** One entry of [streams] in ffprobe's JSON; an absent key is [None]. *)
Record StreamInfo := {
  width : option Z;
  height : option Z
}.

(** ffprobe as it ran: the exit code, the text it wrote to its error
    stream, and standard output as [JSON.parse] reads it ([None]: not
    JSON; [Some None]: no [streams] key). *)
Record ProbeOutput := {
  probe_exit : Z;
  probe_stderr : string;
  probe_json : option (option (list StreamInfo))
}.

(** The [stderr] option of [Bun.spawn].  With [stderr: "pipe"] the error
    stream of the child can be read from [process.stderr].  Without the
    option the child writes to the error stream of the server and
    [process.stderr] is undefined. *)
Inductive Stdio :=
| pipe
| inherit.

(** [await new Response(process.stderr).text()]: the text the child
    wrote when the stream is piped, and the empty string for the
    [Response] built around [undefined]. *)
Definition response_text (stderr : Stdio) (written : string) : string :=
  match stderr with
  | pipe => written
  | inherit => ""
  end.

(** ffmpeg as observed by [processVideoForFastStart]: the exit code, the
    captured error text, and the bytes it left at the output path, if it
    wrote any. *)
Record RemuxOutput := {
  remux_exit : Z;
  remux_stderr : string;
  remux_written : option bytes
}.

(** The collaborators of one handler run.

    Modelled from the spec: [getBearerToken] and [validateJWT] belong to
    the [auth] module, which is not among the sources.  Section 6: given
    a raw credential string and a secret, the auth collaborator returns
    a user identifier or fails with [AuthFailure]. *)
Record Env := {
  getBearerToken : option string -> option string;
  validateJWT : string -> string -> option string;
  (* the external tools, run on the disk as it is, on a path *)
  ffprobe : gmap string bytes -> string -> ProbeOutput;
  ffmpeg : gmap string bytes -> string -> string -> RemuxOutput;
  (* [randomBytes(32).toString("base64url")] of this run *)
  randomName : string;
  (* the outside calls that are refused in this run *)
  refused : IoOp -> bool
}.

(* ===================================================================== *)
(** ** Handlers as state transformers that may throw *)
(* ===================================================================== *)

Inductive Outcome (A : Type) :=
| Returned (a : A)
| Thrown (e : Error).
Arguments Returned {A} a.
Arguments Thrown {A} e.

Definition M (A : Type) : Type := World -> Outcome A * World.

Definition ret {A} (a : A) : M A := fun w => (Returned a, w).
Definition throw {A} (e : Error) : M A := fun w => (Thrown e, w).

Definition bind {A B} (m : M A) (k : A -> M B) : M B :=
  fun w =>
    match m w with
    | (Returned a, w') => k a w'
    | (Thrown e, w') => (Thrown e, w')
    end.

Declare Scope handler_scope.
Delimit Scope handler_scope with handler.
Notation "x <- m ;; k" := (bind m (fun x => k))
  (at level 100, m at next level, right associativity) : handler_scope.
Notation "m ;;; k" := (bind m (fun _ => k))
  (at level 100, right associativity) : handler_scope.
Open Scope handler_scope.

(** [if (!cond) throw e]. *)
Definition require (cond : bool) (e : Error) : M unit :=
  if cond then ret tt else throw e.

Definition get_world : M World := fun w => (Returned w, w).

Definition set_db (d : gmap string VideoRow) : M unit := fun w =>
  (Returned tt, {| db := d; disk := disk w; bucket := bucket w;
                   videoThumbnails := videoThumbnails w |}).

Definition set_disk (d : gmap string bytes) : M unit := fun w =>
  (Returned tt, {| db := db w; disk := d; bucket := bucket w;
                   videoThumbnails := videoThumbnails w |}).

Definition set_bucket (b : gmap string S3Object) : M unit := fun w =>
  (Returned tt, {| db := db w; disk := disk w; bucket := b;
                   videoThumbnails := videoThumbnails w |}).

Definition set_videoThumbnails (t : gmap string Thumbnail) : M unit := fun w =>
  (Returned tt, {| db := db w; disk := disk w; bucket := bucket w;
                   videoThumbnails := t |}).

(** What a handler answers: [respondWithJSON(status, video)], or the
    [Response] built around the thumbnail bytes. *)
Inductive Response :=
| JsonResponse (status : Z) (payload : Video)
| RawResponse (content : bytes) (headers : list (string * string)).

(** Modelled from the spec: [respondWithJSON] belongs to the [json]
    module, which is not among the sources.  Section 6: success returns
    200 with the updated video record as structured data. *)
Definition respondWithJSON (status : Z) (payload : Video) : Response :=
  JsonResponse status payload.

(** JavaScript truthiness of a number read from JSON: absent and zero
    are falsy. *)
Definition truthy (n : option Z) : bool :=
  match n with
  | Some z => negb (z =? 0)%Z
  | None => false
  end.

(** [if (!videoId) throw new BadRequestError("Invalid video ID")]. *)
Definition require_videoId (p : option string) : M string :=
  match p with
  | Some v =>
      if String.eqb v "" then throw (BadRequestError "Invalid video ID")
      else ret v
  | None => throw (BadRequestError "Invalid video ID")
  end.

Section Collaborators.

Context (env : Env).

(** [validateJWT(getBearerToken(req.headers), cfg.jwtSecret)]. *)
Definition authenticate (cfg : ApiConfig) (req : BunRequest) : M string :=
  match getBearerToken env (authorization req) with
  | None => throw (AuthFailure "getBearerToken")
  | Some token =>
      match validateJWT env token (jwtSecret cfg) with
      | None => throw (AuthFailure "validateJWT")
      | Some user => ret user
      end
  end.

(** Modelled from the spec: [getVideo] and [updateVideo] belong to
    [db/videos], which is not among the sources.  Section 6:
    [get(id) -> VideoRecord | NotFound] and
    [update(VideoRecord) -> ok | Failure]; the update replaces the
    record stored under the identifier of the one it is given. *)
Definition getVideo (videoId : string) : M (option Video) :=
  w <- get_world ;; ret (video_of videoId <$> db w !! videoId).

Definition updateVideo (video : Video) : M unit :=
  if refused env (DbUpdate (id video)) then
    throw (IoError (DbUpdate (id video)))
  else
    w <- get_world ;;
    match db w !! id video with
    | Some _ => set_db (<[id video := row_of video]> (db w))
    | None => ret tt
    end.

(** [Bun.write(path, content)]. *)
Definition bun_write (path : string) (content : bytes) : M unit :=
  if refused env (DiskWrite path) then throw (IoError (DiskWrite path))
  else w <- get_world ;; set_disk (<[path := content]> (disk w)).

(** [Bun.file(path).delete()]: unlinking a missing file is an error. *)
Definition bun_delete (path : string) : M unit :=
  w <- get_world ;;
  match disk w !! path with
  | None => throw (IoError (DiskDelete path))
  | Some _ =>
      if refused env (DiskDelete path) then throw (IoError (DiskDelete path))
      else set_disk (delete path (disk w))
  end.

(** [rm(path, { force: true })]: a missing file is not an error. *)
Definition rm_force (path : string) : M unit :=
  w <- get_world ;;
  match disk w !! path with
  | None => ret tt
  | Some _ =>
      if refused env (DiskDelete path) then throw (IoError (DiskDelete path))
      else set_disk (delete path (disk w))
  end.

(** [Promise.all([m1, m2])] for two removals: both are started, so both
    take effect; the await rejects when one of them does. *)
Definition promise_all2 (m1 m2 : M unit) : M unit := fun w =>
  let (r1, w1) := m1 w in
  let (r2, w2) := m2 w1 in
  (match r1 with Thrown e => Thrown e | Returned _ => r2 end, w2).

(** A write to the blob store of the bytes found at a local path,
    replacing whatever the key held ([S3Client.write] and [S3File.write]
    of the runtime). *)
Definition s3_put (key path : string) (ctype : option string) : M unit :=
  w <- get_world ;;
  match disk w !! path with
  | None => throw (IoError (S3Put key))
  | Some content =>
      if refused env (S3Put key) then throw (IoError (S3Put key))
      else set_bucket (<[key := {| body := content; contentType := ctype |}]>
                         (bucket w))
  end.

(** Modelled from the spec: [uploadVideoToS3] belongs to the [s3]
    module, which is not among the sources.  Section 4.4: given a
    storage key, a local file path and a content type, it writes the
    file's bytes to the blob store under that key with the content type
    as metadata, overwriting any existing object at that key, and fails
    on any error of the store. *)
Definition uploadVideoToS3 (cfg : ApiConfig) (key path ctype : string)
  : M unit :=
  s3_put key path (Some ctype).

(** [Bun.spawn(["ffmpeg", "-i", input, ..., output])] awaited to its
    exit: whatever the tool wrote is on disk afterwards. *)
Definition spawn_ffmpeg (input output : string) : M RemuxOutput :=
  w <- get_world ;;
  let out := ffmpeg env (disk w) input output in
  match remux_written out with
  | Some b => set_disk (<[output := b]> (disk w))
  | None => ret tt
  end ;;;
  ret out.

(** [getVideoAspectRatio].  The three revisions differ in one place:
    the revision buffering under the video identifier passes
    [{ stdout: "pipe", stderr: "pipe" }] to [Bun.spawn], videos.ts and
    the other unnamed revision pass no options, so that the [stderr] they
    put in the message is the empty string.  Standard output is piped in
    both cases. *)
Definition getVideoAspectRatio (stderr_option : Stdio) (filePath : string)
  : M AspectClass :=
  w <- get_world ;;
  let out := ffprobe env (disk w) filePath in
  let stderr := response_text stderr_option (probe_stderr out) in
  require (probe_exit out =? 0)%Z
          (JsError ("ffprobe failed: " +:+ stderr)) ;;;
  match probe_json out with
  | None => throw (JsError "SyntaxError")
  | Some json =>
      let stream :=
        match json with
        | Some (s :: _) => Some s
        | _ => None
        end in
      match stream with
      | Some {| width := Some width; height := Some height |} =>
          require (truthy (Some width) && truthy (Some height))
                  (JsError "Could not read video dimensions") ;;;
          ret (classify width height)
      | _ => throw (JsError "Could not read video dimensions")
      end
  end.

End Collaborators.

(* ===================================================================== *)
(** ** [src/api/videos.ts] *)
(* ===================================================================== *)

Module VideosTs.
Section Run.
Context (env : Env).

Definition MAX_UPLOAD_SIZE : Z := 1 * 1024 * 1024 * 1024.

Definition processVideoForFastStart (filePath : string) : M string :=
  let newFilePath := filePath +:+ ".processed" in
  out <- spawn_ffmpeg env filePath newFilePath ;;
  require (remux_exit out =? 0)%Z (JsError "ffprobe failed") ;;;
  ret newFilePath.

(** The name under which the upload is buffered, and the key of the
    blob-store write. *)
Definition key_of (fileName ext : string) : string :=
  fileName +:+ "." +:+ ext.

Definition handlerUploadVideo (cfg : ApiConfig) (req : BunRequest)
  : M Response :=
  videoId <- require_videoId (param_videoId req) ;;
  userID_ <- authenticate env cfg req ;;
  file <- match form req !! "video" with
          | Some (FormFile f) =>
              require (negb (MAX_UPLOAD_SIZE <? file_size f)%Z)
                (BadRequestError
                   "Video file exceeds the maximum allowed size of 1GB") ;;;
              ret f
          | _ => throw (BadRequestError "Video file missing")
          end ;;
  let mediaType := file_type file in
  require (String.eqb mediaType "video/mp4")
          (BadRequestError "Video should be video/mp4") ;;;
  (* [file.arrayBuffer()] yields an object, so [!data] never holds *)
  let data := file_data file in
  found <- getVideo videoId ;;
  match found with
  | None => throw (NotFoundError "Couldn't find video")
  | Some video =>
      require (String.eqb (userID video) userID_)
              (UserForbiddenError "Not authorized to update this video") ;;;
      let ext := Str.interp (Str.split "/" mediaType !! 1%nat) in
      let fileName := randomName env in
      let key := key_of fileName ext in
      let filePath := Path.join [assetsRoot cfg; key] in
      bun_write env filePath data ;;;
      aspectRatio <- getVideoAspectRatio env inherit filePath ;;
      let s3FilePath :=
        Path.join [assetsRoot cfg; aspectName aspectRatio; "/"; key] in
      processedFilePath <- processVideoForFastStart filePath ;;
      s3_put env s3FilePath processedFilePath None ;;;
      let video :=
        set_videoURL video
          ("https://" +:+ s3Bucket cfg +:+ ".s3." +:+ s3Region cfg
           +:+ ".amazonaws.com/" +:+ s3FilePath) in
      updateVideo env video ;;;
      bun_delete env processedFilePath ;;;
      ret (respondWithJSON 200 video)
  end.

End Run.
End VideosTs.

(* ===================================================================== *)
(** ** The revision using the distribution address and a random name
       ([src/unnamed/part_001]) *)
(* ===================================================================== *)

Module Part001.
Section Run.
Context (env : Env).

Definition MAX_UPLOAD_SIZE : Z := 1 * 1024 * 1024 * 1024.

Definition processVideoForFastStart (filePath : string) : M string :=
  let newFilePath := filePath +:+ ".processed" in
  out <- spawn_ffmpeg env filePath newFilePath ;;
  require (remux_exit out =? 0)%Z (JsError "ffprobe failed") ;;;
  ret newFilePath.

Definition handlerUploadVideo (cfg : ApiConfig) (req : BunRequest)
  : M Response :=
  videoId <- require_videoId (param_videoId req) ;;
  userID_ <- authenticate env cfg req ;;
  file <- match form req !! "video" with
          | Some (FormFile f) =>
              require (negb (MAX_UPLOAD_SIZE <? file_size f)%Z)
                (BadRequestError
                   "Video file exceeds the maximum allowed size of 1GB") ;;;
              ret f
          | _ => throw (BadRequestError "Video file missing")
          end ;;
  let mediaType := file_type file in
  require (String.eqb mediaType "video/mp4")
          (BadRequestError "Video should be video/mp4") ;;;
  let data := file_data file in
  found <- getVideo videoId ;;
  match found with
  | None => throw (NotFoundError "Couldn't find video")
  | Some video =>
      require (String.eqb (userID video) userID_)
              (UserForbiddenError "Not authorized to update this video") ;;;
      let ext := Str.interp (Str.split "/" mediaType !! 1%nat) in
      let fileName := randomName env in
      let key := fileName +:+ "." +:+ ext in
      let filePath := Path.join [assetsRoot cfg; key] in
      bun_write env filePath data ;;;
      aspectRatio <- getVideoAspectRatio env inherit filePath ;;
      let s3Key := aspectName aspectRatio +:+ "/" +:+ key in
      processedFilePath <- processVideoForFastStart filePath ;;
      s3_put env s3Key processedFilePath (Some mediaType) ;;;
      let video :=
        set_videoURL video
          ("https://" +:+ s3CfDistribution cfg +:+ "/" +:+ s3Key) in
      updateVideo env video ;;;
      bun_delete env processedFilePath ;;;
      bun_delete env filePath ;;;
      ret (respondWithJSON 200 video)
  end.

End Run.
End Part001.

(* ===================================================================== *)
(** ** The revision buffering under the video identifier
       ([src/unnamed/part_000]) *)
(* ===================================================================== *)

Module Part000.
Section Run.
Context (env : Env).

(** [1 << 30]. *)
Definition MAX_UPLOAD_SIZE : Z := Z.shiftl 1 30.

(** The template literal of the source carries a double quote between
    the input path and the suffix. *)
Definition processed_suffix : string :=
  String Str.dquote ".processed.mp4".

Definition processVideoForFastStart (filePath : string) : M string :=
  let processedFilePath := filePath +:+ processed_suffix in
  out <- spawn_ffmpeg env filePath processedFilePath ;;
  require (remux_exit out =? 0)%Z
          (JsError ("FFmpeg error: " +:+ remux_stderr out)) ;;;
  ret processedFilePath.

Definition tempFilePath_of (videoId : string) : string :=
  Path.join ["/tmp"; videoId +:+ ".mp4"].

Definition key_of (aspectRatio : AspectClass) (videoId : string) : string :=
  aspectName aspectRatio +:+ "/" +:+ videoId +:+ ".mp4".

Definition handlerUploadVideo (cfg : ApiConfig) (req : BunRequest)
  : M Response :=
  videoId <- require_videoId (param_videoId req) ;;
  userID_ <- authenticate env cfg req ;;
  found <- getVideo videoId ;;
  match found with
  | None => throw (NotFoundError "Couldn't find video")
  | Some video =>
      require (String.eqb (userID video) userID_)
              (UserForbiddenError "Not authorized to update this video") ;;;
      file <- match form req !! "video" with
              | Some (FormFile f) => ret f
              | _ => throw (BadRequestError "Video file missing")
              end ;;
      require (negb (MAX_UPLOAD_SIZE <? file_size file)%Z)
              (BadRequestError "File exceeds size limit (1GB)") ;;;
      require (String.eqb (file_type file) "video/mp4")
              (BadRequestError "Invalid file type, only MP4 is allowed") ;;;
      let tempFilePath := tempFilePath_of videoId in
      bun_write env tempFilePath (file_data file) ;;;
      aspectRatio <- getVideoAspectRatio env pipe tempFilePath ;;
      processedFilePath <- processVideoForFastStart tempFilePath ;;
      let key := key_of aspectRatio videoId in
      uploadVideoToS3 env cfg key processedFilePath "video/mp4" ;;;
      let videoURL_ := s3CfDistribution cfg +:+ "/" +:+ key in
      let video := set_videoURL video videoURL_ in
      updateVideo env video ;;;
      promise_all2
        (rm_force env tempFilePath)
        (rm_force env (tempFilePath +:+ ".processed.mp4")) ;;;
      ret (respondWithJSON 200 video)
  end.

End Run.
End Part000.

(* ===================================================================== *)
(** ** [src/api/thumbnails.ts] *)
(* ===================================================================== *)

Module Thumbnails.
Section Run.
Context (env : Env).

Definition MAX_UPLOAD_SIZE : Z := 10 * 1024 * 1024.

Definition handlerGetThumbnail (cfg : ApiConfig) (req : BunRequest)
  : M Response :=
  videoId <- require_videoId (param_videoId req) ;;
  found <- getVideo videoId ;;
  match found with
  | None => throw (NotFoundError "Couldn't find video")
  | Some video =>
      w <- get_world ;;
      match videoThumbnails w !! videoId with
      | None => throw (NotFoundError "Thumbnail not found")
      | Some thumbnail =>
          ret (RawResponse (data thumbnail)
                 [("Content-Type", mediaType thumbnail);
                  ("Cache-Control", "no-store")])
      end
  end.

Definition handlerUploadThumbnail (cfg : ApiConfig) (req : BunRequest)
  : M Response :=
  videoId <- require_videoId (param_videoId req) ;;
  userID_ <- authenticate env cfg req ;;
  file <- match form req !! "thumbnail" with
          | Some (FormFile f) =>
              require (negb (MAX_UPLOAD_SIZE <? file_size f)%Z)
                (BadRequestError
                   "Thumbnail file exceeds the maximum allowed size of 10MB") ;;;
              ret f
          | _ => throw (BadRequestError "Thumbnail file missing")
          end ;;
  let mediaType_ := file_type file in
  require (negb (negb (String.eqb mediaType_ "image/jpeg")
                 && negb (String.eqb mediaType_ "image/png")))
          (BadRequestError
             "Thumbnail should be image image/jpeg or image/png") ;;;
  let data_ := file_data file in
  found <- getVideo videoId ;;
  match found with
  | None => throw (NotFoundError "Couldn't find video")
  | Some video =>
      require (String.eqb (userID video) userID_)
              (UserForbiddenError "Not authorized to update this video") ;;;
      let ext := Str.interp (Str.split "/" mediaType_ !! 1%nat) in
      let fileName := randomName env in
      let filePath := Path.join [assetsRoot cfg; fileName +:+ "." +:+ ext] in
      bun_write env filePath data_ ;;;
      w <- get_world ;;
      set_videoThumbnails
        (<[fileName := {| data := data_; mediaType := mediaType_ |}]>
           (videoThumbnails w)) ;;;
      let video :=
        set_thumbnailURL video
          ("http://localhost:" +:+ port cfg +:+ "/assets/" +:+ fileName
           +:+ "." +:+ ext) in
      updateVideo env video ;;;
      ret (respondWithJSON 200 video)
  end.

End Run.
End Thumbnails.

(* ===================================================================== *)
(** ** A concrete deployment, used to run the handlers *)
(* ===================================================================== *)

Module Fixture.

Definition cfg : ApiConfig :=
  {| jwtSecret := "s3cr3t"; platform := "dev"; filepathRoot := "./app";
     assetsRoot := "./assets"; s3Bucket := "tubely-1234";
     s3Region := "us-east-2";
     s3CfDistribution := "https://d111abcdef8.cloudfront.net";
     port := "8091" |}.

(** The probe reports 1280x720 for any file that exists. *)
Definition probe_720p (d : gmap string bytes) (path : string) : ProbeOutput :=
  match d !! path with
  | Some _ =>
      {| probe_exit := 0; probe_stderr := "";
         probe_json :=
           Some (Some [{| width := Some 1280%Z; height := Some 720%Z |}]) |}
  | None =>
      {| probe_exit := 1; probe_stderr := "No such file or directory";
         probe_json := None |}
  end.

(** The remux copies its input to the output path. *)
Definition remux_copy (d : gmap string bytes) (input output : string)
  : RemuxOutput :=
  match d !! input with
  | Some b => {| remux_exit := 0; remux_stderr := ""; remux_written := Some b |}
  | None =>
      {| remux_exit := 1; remux_stderr := "No such file or directory";
         remux_written := None |}
  end.

(** The remux rejects its input and writes nothing. *)
Definition remux_broken (d : gmap string bytes) (input output : string)
  : RemuxOutput :=
  {| remux_exit := 1; remux_stderr := "moov atom not found";
     remux_written := None |}.

Definition bearer (h : option string) : option string := h.

Definition jwt (token secret : string) : option string :=
  if String.eqb secret "s3cr3t" then
    if String.eqb token "token-of-alice" then Some "alice"
    else if String.eqb token "token-of-bob" then Some "bob"
    else None
  else None.

Definition env_with (remux : gmap string bytes -> string -> string -> RemuxOutput)
    (name : string) : Env :=
  {| getBearerToken := bearer; validateJWT := jwt;
     ffprobe := probe_720p; ffmpeg := remux;
     randomName := name; refused := fun _ => false |}.

Definition env : Env := env_with remux_copy "Zm9vYmFy".
Definition env_again : Env := env_with remux_copy "cXV1eHF1dXg".
Definition env_broken : Env := env_with remux_broken "Zm9vYmFy".

Definition video1 : VideoRow :=
  {| row_userID := "alice"; row_videoURL := None;
     row_thumbnailURL := None |}.

Definition world0 : World :=
  {| db := {[ "vid-1" := video1 ]}; disk := ∅; bucket := ∅;
     videoThumbnails := ∅ |}.

Definition mp4 (size : Z) : FileField :=
  {| file_size := size; file_type := "video/mp4";
     file_data := [0; 0; 0; 32; 102; 116; 121; 112]%Z |}.

Definition upload_by (token : string) (f : FileField) : BunRequest :=
  {| param_videoId := Some "vid-1"; authorization := Some token;
     form := {[ "video" := FormFile f ]} |}.

Definition png : FileField :=
  {| file_size := 2048; file_type := "image/png";
     file_data := [137; 80; 78; 71]%Z |}.

Definition thumbnail_upload : BunRequest :=
  {| param_videoId := Some "vid-1"; authorization := Some "token-of-alice";
     form := {[ "thumbnail" := FormFile png ]} |}.

Definition thumbnail_get : BunRequest :=
  {| param_videoId := Some "vid-1"; authorization := None; form := ∅ |}.

(** The requests and runs the examples below talk about. *)
Definition alice_upload : BunRequest := upload_by "token-of-alice" (mp4 1000).
Definition bob_upload : BunRequest := upload_by "token-of-bob" (mp4 1000).
Definition huge_upload : BunRequest :=
  upload_by "token-of-alice" (mp4 (2 ^ 30 + 1)).
Definition full_upload : BunRequest := upload_by "token-of-alice" (mp4 (2 ^ 30)).

(** The path the third revision hands to ffmpeg for the video vid-1. *)
Definition quoted_path : string :=
  "/tmp/vid-1.mp4" +:+ String Str.dquote ".processed.mp4".

(** Two uploads in a row for the same video, in the third revision and
    in videos.ts. *)
Definition after_first : World :=
  (Part000.handlerUploadVideo env cfg alice_upload world0).2.
Definition after_second : World :=
  (Part000.handlerUploadVideo env_again cfg alice_upload after_first).2.
Definition after_first_ts : World :=
  (VideosTs.handlerUploadVideo env cfg alice_upload world0).2.
Definition after_second_ts : World :=
  (VideosTs.handlerUploadVideo env_again cfg alice_upload after_first_ts).2.

(** A deployment whose disk refuses every write. *)
Definition env_readonly : Env :=
  {| getBearerToken := bearer; validateJWT := jwt;
     ffprobe := probe_720p; ffmpeg := remux_copy;
     randomName := "Zm9vYmFy";
     refused := fun op => match op with DiskWrite _ => true | _ => false end |}.

(** The world after the thumbnail upload for vid-1. *)
Definition after_thumbnail : World :=
  (Thumbnails.handlerUploadThumbnail env cfg thumbnail_upload world0).2.

End Fixture.


(* ===================================================================== *)
(** ** The three revisions side by side *)
(* ===================================================================== *)

Inductive Revision :=
| videos_ts    (* src/api/videos.ts *)
| part_000     (* the revision buffering under the video identifier *)
| part_001.    (* the revision using the distribution address *)

Definition handlerUploadVideo (rev : Revision)
  : Env -> ApiConfig -> BunRequest -> M Response :=
  match rev with
  | videos_ts => VideosTs.handlerUploadVideo
  | part_000 => Part000.handlerUploadVideo
  | part_001 => Part001.handlerUploadVideo
  end.

(** The size ceiling of a revision. *)
Definition max_upload_size (rev : Revision) : Z :=
  match rev with
  | videos_ts => VideosTs.MAX_UPLOAD_SIZE
  | part_000 => Part000.MAX_UPLOAD_SIZE
  | part_001 => Part001.MAX_UPLOAD_SIZE
  end.

(** The message of the size check of a revision. *)
Definition too_large (rev : Revision) : Error :=
  match rev with
  | part_000 => BadRequestError "File exceeds size limit (1GB)"
  | _ => BadRequestError "Video file exceeds the maximum allowed size of 1GB"
  end.

(** Where a revision buffers the upload ([filePath], [tempFilePath]). *)
Definition buffer_path (rev : Revision) (env : Env) (cfg : ApiConfig)
    (videoId : string) : string :=
  match rev with
  | part_000 => Path.join ["/tmp"; videoId +:+ ".mp4"]
  | _ => Path.join [assetsRoot cfg; randomName env +:+ ".mp4"]
  end.

(** Where [processVideoForFastStart] of a revision leaves its copy. *)
Definition fast_start_path (rev : Revision) (filePath : string) : string :=
  match rev with
  | part_000 => filePath +:+ String Str.dquote ".processed.mp4"
  | _ => filePath +:+ ".processed"
  end.

(** The error [processVideoForFastStart] of a revision throws. *)
Definition remux_error (rev : Revision) (out : RemuxOutput) : Error :=
  match rev with
  | part_000 => JsError ("FFmpeg error: " +:+ remux_stderr out)
  | _ => JsError "ffprobe failed"
  end.

(** Whether [getVideoAspectRatio] of a revision asks [Bun.spawn] for the
    error stream of ffprobe. *)
Definition probe_stderr_option (rev : Revision) : Stdio :=
  match rev with
  | part_000 => pipe
  | _ => inherit
  end.

(** The error [getVideoAspectRatio] of a revision throws when ffprobe
    exits with a non-zero code. *)
Definition probe_error (rev : Revision) (out : ProbeOutput) : Error :=
  match rev with
  | part_000 => JsError ("ffprobe failed: " +:+ probe_stderr out)
  | _ => JsError "ffprobe failed: "
  end.

(** The key a revision writes to the blob store ([s3FilePath], [s3Key],
    [key]). *)
Definition storage_key (rev : Revision) (env : Env) (cfg : ApiConfig)
    (aspectRatio : AspectClass) (videoId : string) : string :=
  match rev with
  | videos_ts =>
      Path.join [assetsRoot cfg; aspectName aspectRatio; "/";
                 randomName env +:+ ".mp4"]
  | part_001 => aspectName aspectRatio +:+ "/" +:+ randomName env +:+ ".mp4"
  | part_000 => aspectName aspectRatio +:+ "/" +:+ videoId +:+ ".mp4"
  end.

(** The content type a revision passes to the blob store. *)
Definition stored_type (rev : Revision) : option string :=
  match rev with
  | videos_ts => None
  | _ => Some "video/mp4"
  end.

(** The public address a revision puts in front of the key. *)
Definition base_address (rev : Revision) (cfg : ApiConfig) : string :=
  match rev with
  | videos_ts =>
      "https://" +:+ s3Bucket cfg +:+ ".s3." +:+ s3Region cfg
      +:+ ".amazonaws.com"
  | part_001 => "https://" +:+ s3CfDistribution cfg
  | part_000 => s3CfDistribution cfg
  end.

(** The disk once the upload is buffered and the remux has run. *)
Definition disk_after_remux (rev : Revision) (env : Env) (cfg : ApiConfig)
    (videoId : string) (content : bytes) (d : gmap string bytes)
  : gmap string bytes :=
  let filePath := buffer_path rev env cfg videoId in
  let buffered := <[filePath := content]> d in
  match remux_written
          (ffmpeg env buffered filePath (fast_start_path rev filePath)) with
  | Some b => <[fast_start_path rev filePath := b]> buffered
  | None => buffered
  end.

(** What the closing deletions of a revision make of the disk. *)
Definition cleanup (rev : Revision) (filePath : string)
    (d : gmap string bytes) : gmap string bytes :=
  match rev with
  | videos_ts => delete (fast_start_path videos_ts filePath) d
  | part_001 => delete filePath (delete (fast_start_path part_001 filePath) d)
  | part_000 => delete (filePath +:+ ".processed.mp4") (delete filePath d)
  end.

(** A request that passes every check of the Validating state: a video
    identifier, a credential resolving to the owner of the stored video,
    and an MP4 file field within the size ceiling. *)
Definition validated (env : Env) (cfg : ApiConfig) (req : BunRequest)
    (w : World) (videoId : string) (row : VideoRow) (f : FileField) : Prop :=
  param_videoId req = Some videoId /\ videoId <> "" /\
  (exists token,
      getBearerToken env (authorization req) = Some token /\
      validateJWT env token (jwtSecret cfg) = Some (row_userID row)) /\
  db w !! videoId = Some row /\
  form req !! "video" = Some (FormFile f) /\
  (file_size f <= 2 ^ 30)%Z /\
  file_type f = "video/mp4".

(** The probe of the file at [path] succeeds and yields class [c]. *)
Definition probed (env : Env) (d : gmap string bytes) (path : string)
    (c : AspectClass) : Prop :=
  exists (wd ht : Z) (rest : list StreamInfo),
    probe_exit (ffprobe env d path) = 0%Z /\
    probe_json (ffprobe env d path) =
      Some (Some ({| width := Some wd; height := Some ht |} :: rest)) /\
    wd <> 0%Z /\ ht <> 0%Z /\ c = classify wd ht.

(** The errors raised by the closing deletions, after the record has
    been updated. *)
Definition cleanup_failure (e : Error) : bool :=
  match e with
  | IoError (DiskDelete _) => true
  | _ => false
  end.

(** The failure classes of section 7: bad request, authentication,
    authorisation, lookup, probe and remux (plain errors), and a refused
    blob-store write. *)
Definition upload_failure (e : Error) : bool :=
  match e with
  | BadRequestError _ | AuthFailure _ | UserForbiddenError _
  | NotFoundError _ | JsError _ | IoError (S3Put _) => true
  | IoError _ => false
  end.

(* ===================================================================== *)
(** ** [src/api/assets.ts] *)
(* ===================================================================== *)

Module Assets.

Definition mediaTypeToExt (mediaType : string) : string :=
  let parts := Str.split "/" mediaType in
  if negb (length parts =? 2)%nat then ".bin"
  else "." +:+ Str.interp (parts !! 1%nat).

(** [getAssetPath]: the name drawn with [randomBytes(32)], in base64url,
    followed by the extension. *)
Definition getAssetPath (env : Env) (mediaType : string) : string :=
  let id_ := randomName env in
  let ext := mediaTypeToExt mediaType in
  id_ +:+ ext.

Definition getAssetDiskPath (cfg : ApiConfig) (assetPath : string) : string :=
  Path.join [assetsRoot cfg; assetPath].

Definition getAssetURL (cfg : ApiConfig) (assetPath : string) : string :=
  "http://localhost:" +:+ port cfg +:+ "/assets/" +:+ assetPath.

End Assets.

(* ===================================================================== *)
(** ** The configuration module ([src/unnamed/part_002]) *)
(* ===================================================================== *)

Module Config.

(** [envOrThrow]: [process.env[key]], refused when absent or empty. *)
Definition envOrThrow (environ : gmap string string) (key : string)
  : Outcome string :=
  match environ !! key with
  | Some envVar =>
      if String.eqb envVar "" then Thrown (JsError (key +:+ " must be set"))
      else Returned envVar
  | None => Thrown (JsError (key +:+ " must be set"))
  end.

(** The two constructors the module calls at its top level, each given
    the values it is called with; either returns or throws.

    Modelled from their use: [S3Client] is the runtime's and
    [newDatabase] belongs to [db/db]; neither is among the sources.  The
    objects they build are the blob store and the record store of
    [World]. *)
Record Constructors := {
  S3Client : string -> string -> string -> Outcome unit;
  newDatabase : string -> Outcome unit
}.

(** What the module has read once its top-level statements have run:
    the configuration record, and the values handed to [newDatabase]
    and to the [S3Client] constructor. *)
Record Loaded := {
  pathToDB : string;
  accessKeyId : string;
  secretAccessKey : string;
  cfg : ApiConfig
}.

Definition and_then {A B : Type} (o : Outcome A) (k : A -> Outcome B)
  : Outcome B :=
  match o with
  | Returned a => k a
  | Thrown e => Thrown e
  end.

(** The top-level statements of the module, in their order: eight
    reads, the blob-store client with the two reads of its argument, the
    read of the port, the database, and the record. *)
Definition load (sys : Constructors) (environ : gmap string string)
  : Outcome Loaded :=
  and_then (envOrThrow environ "DB_PATH") (fun pathToDB_ =>
  and_then (envOrThrow environ "JWT_SECRET") (fun jwtSecret_ =>
  and_then (envOrThrow environ "PLATFORM") (fun platform_ =>
  and_then (envOrThrow environ "FILEPATH_ROOT") (fun filepathRoot_ =>
  and_then (envOrThrow environ "ASSETS_ROOT") (fun assetsRoot_ =>
  and_then (envOrThrow environ "S3_BUCKET") (fun s3Bucket_ =>
  and_then (envOrThrow environ "S3_REGION") (fun s3Region_ =>
  and_then (envOrThrow environ "S3_CF_DISTRO") (fun s3CfDistribution_ =>
  and_then (envOrThrow environ "AWS_ACCESS_KEY_ID") (fun accessKeyId_ =>
  and_then (envOrThrow environ "AWS_SECRET_ACCESS_KEY") (fun secretAccessKey_ =>
  and_then (S3Client sys accessKeyId_ secretAccessKey_ s3Bucket_) (fun s3Client =>
  and_then (envOrThrow environ "PORT") (fun port_ =>
  and_then (newDatabase sys pathToDB_) (fun db =>
  Returned
    {| pathToDB := pathToDB_;
       accessKeyId := accessKeyId_;
       secretAccessKey := secretAccessKey_;
       cfg := {| jwtSecret := jwtSecret_; platform := platform_;
                 filepathRoot := filepathRoot_; assetsRoot := assetsRoot_;
                 s3Bucket := s3Bucket_; s3Region := s3Region_;
                 s3CfDistribution := s3CfDistribution_;
                 port := port_ |} |}))))))))))))).

(** The variables the module reads, in the order it reads them. *)
Definition required : list string :=
  ["DB_PATH"; "JWT_SECRET"; "PLATFORM"; "FILEPATH_ROOT"; "ASSETS_ROOT";
   "S3_BUCKET"; "S3_REGION"; "S3_CF_DISTRO"; "AWS_ACCESS_KEY_ID";
   "AWS_SECRET_ACCESS_KEY"; "PORT"].

(** The variables read before the blob-store client is built. *)
Definition read_before_client : list string :=
  ["DB_PATH"; "JWT_SECRET"; "PLATFORM"; "FILEPATH_ROOT"; "ASSETS_ROOT";
   "S3_BUCKET"; "S3_REGION"; "S3_CF_DISTRO"; "AWS_ACCESS_KEY_ID";
   "AWS_SECRET_ACCESS_KEY"].

(** A variable that is set to a non-empty value. *)
Definition is_set (environ : gmap string string) (key : string) : bool :=
  match environ !! key with
  | Some v => negb (String.eqb v "")
  | None => false
  end.

(** The call that builds the blob-store client, on the values of the
    three variables it is given. *)
Definition client_call (sys : Constructors) (environ : gmap string string)
    (o : Outcome unit) : Prop :=
  exists accessKeyId_ secretAccessKey_ s3Bucket_,
    environ !! "AWS_ACCESS_KEY_ID" = Some accessKeyId_ /\
    environ !! "AWS_SECRET_ACCESS_KEY" = Some secretAccessKey_ /\
    environ !! "S3_BUCKET" = Some s3Bucket_ /\
    S3Client sys accessKeyId_ secretAccessKey_ s3Bucket_ = o.

(** The call that opens the database, on the value of DB_PATH. *)
Definition database_call (sys : Constructors) (environ : gmap string string)
    (o : Outcome unit) : Prop :=
  exists pathToDB_,
    environ !! "DB_PATH" = Some pathToDB_ /\ newDatabase sys pathToDB_ = o.

End Config.

(* ===================================================================== *)
(** ** More notions for the statements below *)
(* ===================================================================== *)

(** The number of occurrences of a character in a string. *)
Fixpoint occurrences (c : ascii) (s : string) : nat :=
  match s with
  | EmptyString => 0
  | String d rest =>
      (if Ascii.eqb d c then 1 else 0) + occurrences c rest
  end.

(** [processVideoForFastStart] of a revision. *)
Definition processVideoForFastStart (rev : Revision)
  : Env -> string -> M string :=
  match rev with
  | videos_ts => VideosTs.processVideoForFastStart
  | part_000 => Part000.processVideoForFastStart
  | part_001 => Part001.processVideoForFastStart
  end.

(** The errors of the Validating state. *)
Definition validation_failure (e : Error) : bool :=
  match e with
  | BadRequestError _ | AuthFailure _ | UserForbiddenError _
  | NotFoundError _ => true
  | _ => false
  end.

(** The message of the media-type check of a revision. *)
Definition wrong_type (rev : Revision) : Error :=
  match rev with
  | part_000 => BadRequestError "Invalid file type, only MP4 is allowed"
  | _ => BadRequestError "Video should be video/mp4"
  end.

(** The checks a revision makes before it looks at the file field: the
    identifier and the credential, and in the revision buffering under
    the video identifier also the lookup and the ownership. *)
Definition admitted (rev : Revision) (env : Env) (cfg : ApiConfig)
    (req : BunRequest) (w : World) : Prop :=
  exists videoId token user,
    param_videoId req = Some videoId /\ videoId <> "" /\
    getBearerToken env (authorization req) = Some token /\
    validateJWT env token (jwtSecret cfg) = Some user /\
    (rev = part_000 ->
     exists row : VideoRow,
       db w !! videoId = Some row /\ row_userID row = user).

(** The file field of a request is an MP4 within the ceiling. *)
Definition file_in_order (req : BunRequest) : Prop :=
  exists f : FileField,
    form req !! "video" = Some (FormFile f) /\
    (file_size f <= 2 ^ 30)%Z /\ file_type f = "video/mp4".

Module Scenarios.

(** A process environment with every variable set. *)
Definition environ_full : gmap string string :=
  list_to_map
    [("DB_PATH", "./tubely.db"); ("JWT_SECRET", "s3cr3t");
     ("PLATFORM", "dev"); ("FILEPATH_ROOT", "./app");
     ("ASSETS_ROOT", "./assets"); ("S3_BUCKET", "tubely-1234");
     ("S3_REGION", "us-east-2");
     ("S3_CF_DISTRO", "https://d111abcdef8.cloudfront.net");
     ("AWS_ACCESS_KEY_ID", "AKIAEXAMPLE");
     ("AWS_SECRET_ACCESS_KEY", "secret"); ("PORT", "8091")].

(** The same without S3_REGION, and with an empty PORT. *)
Definition environ_no_region : gmap string string :=
  <["PORT" := ""]> (delete "S3_REGION" environ_full).

(** Constructors that accept what they are given, and a database that
    cannot be opened. *)
Definition constructors : Config.Constructors :=
  {| Config.S3Client := fun _ _ _ => Returned tt;
     Config.newDatabase := fun _ => Returned tt |}.

Definition constructors_no_db : Config.Constructors :=
  {| Config.S3Client := fun _ _ _ => Returned tt;
     Config.newDatabase := fun _ =>
       Thrown (JsError "unable to open database file") |}.

(** A probe that reports a stream of height zero. *)
Definition probe_flat (d : gmap string bytes) (path : string) : ProbeOutput :=
  {| probe_exit := 0; probe_stderr := "";
     probe_json :=
       Some (Some [{| width := Some 1280%Z; height := Some 0%Z |}]) |}.

Definition env_flat : Env :=
  {| getBearerToken := Fixture.bearer; validateJWT := Fixture.jwt;
     ffprobe := probe_flat; ffmpeg := Fixture.remux_copy;
     randomName := "Zm9vYmFy"; refused := fun _ => false |}.

(** The world once the upload for vid-1 has been buffered. *)
Definition world_buffered : World :=
  {| db := db Fixture.world0;
     disk := {[ "/tmp/vid-1.mp4" := file_data (Fixture.mp4 1000) ]};
     bucket := ∅; videoThumbnails := ∅ |}.

(** A request without a video identifier. *)
Definition anonymous : BunRequest :=
  {| param_videoId := None; authorization := None; form := ∅ |}.

(** An upload whose token the auth collaborator does not know. *)
Definition forged_upload : BunRequest :=
  Fixture.upload_by "token-of-mallory" (Fixture.mp4 1000).

(** An upload by the owner without a file field. *)
Definition empty_upload : BunRequest :=
  {| param_videoId := Some "vid-1";
     authorization := Some "token-of-alice"; form := ∅ |}.

(** A world without any video. *)
Definition world_empty : World :=
  {| db := ∅; disk := ∅; bucket := ∅; videoThumbnails := ∅ |}.

(** A probe that rejects every file. *)
Definition probe_broken (d : gmap string bytes) (path : string) : ProbeOutput :=
  {| probe_exit := 1; probe_stderr := "Invalid data found";
     probe_json := None |}.

Definition env_no_probe : Env :=
  {| getBearerToken := Fixture.bearer; validateJWT := Fixture.jwt;
     ffprobe := probe_broken; ffmpeg := Fixture.remux_copy;
     randomName := "Zm9vYmFy"; refused := fun _ => false |}.

(** A deployment whose blob store refuses every write. *)
Definition env_no_store : Env :=
  {| getBearerToken := Fixture.bearer; validateJWT := Fixture.jwt;
     ffprobe := Fixture.probe_720p; ffmpeg := Fixture.remux_copy;
     randomName := "Zm9vYmFy";
     refused := fun op => match op with S3Put _ => true | _ => false end |}.

(** A thumbnail upload by the owner with a GIF, and one by another
    user with a PNG. *)
Definition gif : FileField :=
  {| file_size := 512; file_type := "image/gif";
     file_data := [71; 73; 70; 56]%Z |}.

Definition thumbnail_by (token : string) (f : FileField) : BunRequest :=
  {| param_videoId := Some "vid-1"; authorization := Some token;
     form := {[ "thumbnail" := FormFile f ]} |}.

(** A deployment whose record store refuses every update. *)
Definition env_no_db : Env :=
  {| getBearerToken := Fixture.bearer; validateJWT := Fixture.jwt;
     ffprobe := Fixture.probe_720p; ffmpeg := Fixture.remux_copy;
     randomName := "Zm9vYmFy";
     refused := fun op => match op with DbUpdate _ => true | _ => false end |}.

(** A world whose thumbnail map holds an entry under the video
    identifier itself. *)
Definition world_with_thumbnail : World :=
  {| db := db Fixture.world0; disk := ∅; bucket := ∅;
     videoThumbnails :=
       {[ "vid-1" := {| data := file_data Fixture.png;
                        mediaType := "image/png" |} ]} |}.

End Scenarios.

(** A parsed probe output without a first stream whose width and height
    are both present and non-zero. *)
Definition unusable (json : option (list StreamInfo)) : Prop :=
  match json with
  | Some (s :: _) => truthy (width s) && truthy (height s) = false
  | _ => True
  end.

(* ===================================================================== *)
(** ** Properties of the aspect classifier *)
(* ===================================================================== *)

Section Classifier.
Local Open Scope Z_scope.

Lemma classify_landscape_iff (width height : Z) :
  classify width height = landscape <-> width / height = 1.
Proof.
  unfold classify. change (16 / 9) with 1. change (9 / 16) with 0.
  destruct (Z.eqb_spec (width / height) 1) as [E | E].
  - tauto.
  - destruct (Z.eqb_spec (width / height) 0); split; intros; congruence.
Qed.

Lemma classify_portrait_iff (width height : Z) :
  classify width height = portrait <-> width / height = 0.
Proof.
  unfold classify. change (16 / 9) with 1. change (9 / 16) with 0.
  destruct (Z.eqb_spec (width / height) 1) as [E | E].
  - split; intros; [discriminate | lia].
  - destruct (Z.eqb_spec (width / height) 0); split; intros; congruence.
Qed.

Lemma classify_other_iff (width height : Z) :
  classify width height = other <->
  width / height <> 1 /\ width / height <> 0.
Proof.
  unfold classify. change (16 / 9) with 1. change (9 / 16) with 0.
  destruct (Z.eqb_spec (width / height) 1) as [E | E].
  - split; [discriminate | tauto].
  - destruct (Z.eqb_spec (width / height) 0); split;
      intros; try tauto; try discriminate.
Qed.

(** Where the truncated quotient sits, for a positive height. *)
Lemma quotient_band (width height q : Z) :
  0 < height ->
  (width / height = q <-> q * height <= width < (q + 1) * height).
Proof.
  intros Hh. pose proof (Z.div_mod width height ltac:(lia)) as Hdm.
  pose proof (Z.mod_pos_bound width height Hh) as Hm.
  split.
  - intros <-. nia.
  - intros [Hlo Hhi]. symmetry.
    apply (Z.div_unique width height q (width - q * height)); lia.
Qed.

(** Equal ratios have equal truncated quotients. *)
Lemma quotient_of_ratio (w h w' h' : Z) :
  0 < h -> 0 < h' -> w * h' = w' * h -> w / h = w' / h'.
Proof.
  intros Hh Hh' Hr.
  apply (quotient_band w h (w' / h') Hh).
  pose proof (proj1 (quotient_band w' h' (w' / h') Hh') eq_refl) as [Hlo Hhi].
  split; nia.
Qed.

End Classifier.

(** C3 (as amended): for a positive height, [classify] answers
    landscape exactly when the ratio width/height lies in [1, 2), square
    video included; portrait exactly when it lies in [0, 1); and other
    in every remaining case, that is for a ratio of 2 or more (or a
    negative width).  In particular classify(16,9) = landscape,
    classify(9,16) = portrait and classify(1,1) = landscape. *)
Theorem C3_classify_bands :
  (forall width height : Z, (0 < height)%Z ->
     (classify width height = landscape <->
        (height <= width < 2 * height)%Z) /\
     (classify width height = portrait <-> (0 <= width < height)%Z) /\
     (classify width height = other <->
        (width < 0 \/ 2 * height <= width)%Z)) /\
  classify 16 9 = landscape /\
  classify 9 16 = portrait /\
  classify 1 1 = landscape.
Proof.
  split; [| repeat split; reflexivity].
  intros width height Hh.
  rewrite classify_landscape_iff, classify_portrait_iff, classify_other_iff.
  rewrite !(quotient_band width height) by assumption.
  repeat split; intros; try lia.
Qed.

Lemma C3_classify_bands_witness :
  (0 < 2)%Z /\
  (classify 3 2 = landscape <-> (2 <= 3 < 2 * 2)%Z) /\
  classify 1 1 = landscape.
Proof.
  split; [lia |].
  split.
  - apply (proj1 C3_classify_bands 3%Z 2%Z). lia.
  - apply (proj2 C3_classify_bands).
Defined.

(** C3 (as stated) fails on square video: the quotient 1/1 is 1, which
    is the landscape case, so classify(1,1) is not other. *)
Lemma C3_square_is_not_other : classify 1 1 <> other.
Proof. vm_compute. discriminate. Qed.

(** C9: for a positive height, [classify] returns one of landscape,
    portrait and other, and depends on the ratio width/height only:
    scaling both dimensions by a positive factor, and more generally
    passing to any pair of equal ratio, leaves the class unchanged. *)
Theorem C9_classify_ratio_only (width height k : Z) :
  (0 < height)%Z -> (0 < k)%Z ->
  (classify width height = landscape \/
   classify width height = portrait \/
   classify width height = other) /\
  classify (k * width) (k * height) = classify width height /\
  (forall width' height' : Z, (0 < height')%Z ->
     (width * height' = width' * height)%Z ->
     classify width' height' = classify width height).
Proof.
  intros Hh Hk. split; [| split].
  - destruct (classify width height); auto.
  - unfold classify. rewrite Z.div_mul_cancel_l by lia. reflexivity.
  - intros width' height' Hh' Hr. unfold classify.
    rewrite (quotient_of_ratio width height width' height') by assumption.
    reflexivity.
Qed.

Lemma C9_classify_ratio_only_witness :
  classify (120 * 16) (120 * 9) = classify 16 9.
Proof.
  apply (C9_classify_ratio_only 16 9 120); lia.
Defined.

(* ===================================================================== *)
(** ** Symbolic execution of a handler *)
(* ===================================================================== *)

Ltac unfold_handler H :=
  unfold handlerUploadVideo,
    Part000.handlerUploadVideo, Part001.handlerUploadVideo,
    VideosTs.handlerUploadVideo, Thumbnails.handlerUploadThumbnail,
    Thumbnails.handlerGetThumbnail,
    Part000.processVideoForFastStart, Part001.processVideoForFastStart,
    VideosTs.processVideoForFastStart,
    getVideoAspectRatio, response_text, spawn_ffmpeg, uploadVideoToS3,
    s3_put,
    promise_all2, rm_force, bun_delete, bun_write, updateVideo, getVideo,
    authenticate, require_videoId, require, bind, ret, throw,
    get_world, set_db, set_disk, set_bucket, set_videoThumbnails,
    VideosTs.key_of, Part000.tempFilePath_of, Part000.key_of,
    Part000.processed_suffix, respondWithJSON,
    fmap, option_fmap, option_map in H.

Section StringFacts.

Lemma append_assoc (a b c : string) : (a +:+ b) +:+ c = a +:+ b +:+ c.
Proof.
  induction a as [| ch a IH]; [reflexivity |].
  change (String ch ((a +:+ b) +:+ c) = String ch (a +:+ b +:+ c)).
  now rewrite IH.
Qed.

Lemma append_nil_r (a : string) : a +:+ "" = a.
Proof.
  induction a as [| ch a IH]; [reflexivity |].
  change (String ch (a +:+ "") = String ch a). now rewrite IH.
Qed.

(** A path and the path extended by a non-empty suffix differ. *)
Lemma append_ne_self (a b : string) : b <> "" -> a +:+ b <> a.
Proof.
  intros Hb E. apply Hb.
  apply (String.app_inj a). now rewrite append_nil_r.
Qed.

Lemma append_ne (a b c : string) : b <> c -> a +:+ b <> a +:+ c.
Proof. intros Hbc E. apply Hbc. exact (String.app_inj a _ _ E). Qed.

Lemma eqb_true (a b : string) : (a =? b)%string = true -> a = b.
Proof. apply String.eqb_eq. Qed.

Lemma ext_mp4 : Str.interp (Str.split "/" "video/mp4" !! 1%nat) = "mp4".
Proof. reflexivity. Qed.

End StringFacts.


(** The scrutinee the evaluation of a term is waiting for. *)
Ltac spine t :=
  lazymatch t with
  | match ?x with _ => _ end => spine x
  | (match ?x with _ => _ end) _ => spine x
  | _ => t
  end.

(** Paths that differ by a suffix. *)
Ltac path_ne :=
  first [ apply append_ne_self; discriminate
        | apply not_eq_sym, append_ne_self; discriminate
        | apply append_ne; discriminate ].

(** Resolve the lookups of paths that are known apart. *)
Ltac lookups_in H :=
  repeat first
    [ rewrite lookup_insert_eq in H
    | rewrite lookup_delete_eq in H
    | rewrite lookup_insert_ne in H by path_ne
    | rewrite lookup_delete_ne in H by path_ne ].

Ltac lookups :=
  repeat first
    [ rewrite lookup_insert_eq
    | rewrite lookup_delete_eq
    | rewrite lookup_insert_ne by path_ne
    | rewrite lookup_delete_ne by path_ne ].

(** Once the media type is known to be video/mp4, so is the extension
    split off it. *)
Ltac media_type_in H :=
  try match goal with
    | E : (file_type ?f =? "video/mp4")%string = true |- _ =>
        rewrite (eqb_true _ _ E) in H
    end;
  rewrite ?ext_mp4 in H;
  change ("." +:+ "mp4") with ".mp4" in H.

Ltac tidy H :=
  cbv beta iota zeta in H;
  cbn [db disk bucket videoThumbnails
       id userID videoURL thumbnailURL set_videoURL set_thumbnailURL
       video_of] in H.

Ltac branch H s :=
  destruct s eqn:?; tidy H; try discriminate H; try congruence.

Ltac run_step H :=
  lazymatch type of H with
  | (_, _) = (_, _) => fail
  | ?lhs = _ =>
      let s := spine lhs in
      lazymatch s with
      | (<[_:=_]> _) !! _ => first [progress lookups_in H | branch H s]
      | (delete _ _) !! _ => first [progress lookups_in H | branch H s]
      | (file_type _ =? _)%string =>
          destruct s eqn:?; tidy H; try discriminate H;
          media_type_in H; try congruence
      | _ => branch H s
      end
  end.

(** Follow the handler run recorded in [H] along every path it can
    take, leaving one goal per path that ends as [H] says. *)
Ltac run H := unfold_handler H; tidy H; repeat run_step H.

Lemma processed_ne_raw (rev : Revision) (p : string) :
  fast_start_path rev p <> p.
Proof. destruct rev; apply append_ne_self; discriminate. Qed.

Lemma processed_ne_rm (p : string) :
  fast_start_path part_000 p <> p +:+ ".processed.mp4".
Proof. apply append_ne. discriminate. Qed.

Lemma size_check (limit size : Z) :
  limit = (2 ^ 30)%Z ->
  negb (limit <? size)%Z = true -> (size <= 2 ^ 30)%Z.
Proof. intros ->. rewrite negb_true_iff, Z.ltb_ge. trivial. Qed.

Lemma truthy_dims (a b : Z) :
  truthy (Some a) && truthy (Some b) = true -> a <> 0%Z /\ b <> 0%Z.
Proof.
  unfold truthy. rewrite andb_true_iff, !negb_true_iff, !Z.eqb_neq. trivial.
Qed.

(** Bring the facts a run leaves behind into the shape of the
    statements: equalities instead of boolean tests. *)
Ltac settle :=
  repeat match goal with
    | H : (_ =? _)%string = true |- _ => apply String.eqb_eq in H
    | H : (_ =? _)%string = false |- _ => apply String.eqb_neq in H
    | H : (_ =? _)%Z = true |- _ => apply Z.eqb_eq in H
    | H : (_ =? _)%Z = false |- _ => apply Z.eqb_neq in H
    | H : truthy (Some _) && truthy (Some _) = true |- _ =>
        apply truthy_dims in H; destruct H
    end.


Ltac unfold_revision :=
  cbn [buffer_path fast_start_path storage_key stored_type base_address
       cleanup remux_error probe_error probe_stderr_option max_upload_size
       too_large] in *.


(** *** Successful runs *)

Lemma upload_success (rev : Revision) env cfg req w r w' :
  handlerUploadVideo rev env cfg req w = (Returned r, w') ->
  exists videoId row f c content,
    let filePath := buffer_path rev env cfg videoId in
    let key := storage_key rev env cfg c videoId in
    let video :=
      set_videoURL (video_of videoId row)
        (base_address rev cfg +:+ "/" +:+ key) in
    let d := disk_after_remux rev env cfg videoId (file_data f) (disk w) in
    validated env cfg req w videoId row f /\
    probed env (<[filePath := file_data f]> (disk w)) filePath c /\
    d !! fast_start_path rev filePath = Some content /\
    r = JsonResponse 200 video /\
    db w' = <[videoId := row_of video]> (db w) /\
    disk w' = cleanup rev filePath d /\
    bucket w' =
      <[key := {| body := content; contentType := stored_type rev |}]>
        (bucket w) /\
    videoThumbnails w' = videoThumbnails w.
Proof.
  intros H. destruct rev; run H; settle.
  all: injection H as <- <-.
  all: simplify_eq.
  all: match goal with
       | Hs : form _ !! "video" = Some (FormFile ?f),
         Hp : param_videoId _ = Some ?v,
         Hr : db _ !! ?v = Some ?row,
         Hj : probe_json _ =
                Some (Some ({| width := Some ?a; height := Some ?b |} :: _)),
         Hput : refused _ (S3Put _) = false |- _ =>
           exists v, row, f, (classify a b)
       end.
  all: unfold disk_after_remux; unfold_revision.
  all: match goal with
       | Hw : remux_written _ = _ |- _ => rewrite Hw
       end.
  all: cbn [db disk bucket videoThumbnails].
  all: eexists.
  all: repeat match goal with |- _ /\ _ => split end.
  all: lookups.
  all: try reflexivity; try eassumption.
  all: try (rewrite !append_assoc; reflexivity).
  all: try (symmetry; apply delete_id; lookups; eassumption).
  all: try (unfold probed; eauto 10).
  all: unfold validated; split_and!; eauto.
  all: eapply size_check; [| eassumption]; reflexivity.
Qed.

Lemma disk_after_remux_raw rev env cfg videoId content d :
  disk_after_remux rev env cfg videoId content d
    !! buffer_path rev env cfg videoId = Some content.
Proof.
  unfold disk_after_remux.
  destruct (remux_written _); destruct rev; unfold_revision; lookups;
    reflexivity.
Qed.

Lemma probed_functional env d path c c' :
  probed env d path c -> probed env d path c' -> c = c'.
Proof.
  intros (wd & ht & rest & _ & Hj & _ & _ & ->)
         (wd' & ht' & rest' & _ & Hj' & _ & _ & ->).
  congruence.
Qed.

Lemma max_upload_size_is_1GiB rev : max_upload_size rev = (2 ^ 30)%Z.
Proof. destruct rev; reflexivity. Qed.

(** The tests the handlers make, as they come out for a validated
    request. *)
Lemma validated_tests env cfg req w videoId row f :
  validated env cfg req w videoId row f ->
  param_videoId req = Some videoId /\
  (videoId =? "")%string = false /\
  (exists token,
      getBearerToken env (authorization req) = Some token /\
      validateJWT env token (jwtSecret cfg) = Some (row_userID row)) /\
  db w !! videoId = Some row /\
  (row_userID row =? row_userID row)%string = true /\
  form req !! "video" = Some (FormFile f) /\
  (forall rev, negb (max_upload_size rev <? file_size f)%Z = true) /\
  (file_type f =? "video/mp4")%string = true.
Proof.
  intros (Hp & Hne & Hauth & Hrow & Hform & Hsize & Htype).
  split_and!; try assumption.
  - now apply String.eqb_neq.
  - apply String.eqb_refl.
  - intros rev. rewrite max_upload_size_is_1GiB.
    apply negb_true_iff, Z.ltb_ge. exact Hsize.
  - now apply String.eqb_eq.
Qed.

Lemma probed_tests env d path c :
  probed env d path c ->
  exists wd ht rest,
    (probe_exit (ffprobe env d path) =? 0)%Z = true /\
    probe_json (ffprobe env d path) =
      Some (Some ({| width := Some wd; height := Some ht |} :: rest)) /\
    truthy (Some wd) && truthy (Some ht) = true /\
    c = classify wd ht.
Proof.
  intros (wd & ht & rest & He & Hj & Hw & Hh & ->).
  exists wd, ht, rest. split_and!; trivial.
  - now apply Z.eqb_eq.
  - unfold truthy. apply andb_true_iff.
    split; apply negb_true_iff, Z.eqb_neq; assumption.
Qed.

(** Open a validated request into the tests of each revision. *)
Ltac open_validated Hv :=
  let Hsz := fresh "Hsize" in
  apply validated_tests in Hv;
  destruct Hv as (? & ? & (? & ? & ?) & ? & ? & ? & Hsz & ?);
  pose proof (Hsz videos_ts); pose proof (Hsz part_000);
  pose proof (Hsz part_001); clear Hsz;
  cbn [max_upload_size] in *.

(** *** Failing runs *)

(** Whatever error a run ends with, short of a failed closing deletion,
    the record store is as it was. *)
Lemma failure_keeps_record (rev : Revision) env cfg req w e w' :
  handlerUploadVideo rev env cfg req w = (Thrown e, w') ->
  cleanup_failure e = false ->
  db w' = db w.
Proof.
  intros H He. destruct rev; run H.
  all: injection H as <- <-; try reflexivity; discriminate He.
Qed.

(** A caller who is not the owner of the video is turned away with the
    world as it was.  The first two revisions look at the file field
    before they look at the owner, so there the file has to be in
    order. *)
Lemma not_owner_forbidden (rev : Revision) env cfg req w videoId token user row :
  param_videoId req = Some videoId -> videoId <> "" ->
  getBearerToken env (authorization req) = Some token ->
  validateJWT env token (jwtSecret cfg) = Some user ->
  db w !! videoId = Some row ->
  row_userID row <> user ->
  (rev = part_000 \/
   exists f, form req !! "video" = Some (FormFile f) /\
             (file_size f <= 2 ^ 30)%Z /\ file_type f = "video/mp4") ->
  handlerUploadVideo rev env cfg req w =
    (Thrown (UserForbiddenError "Not authorized to update this video"), w).
Proof.
  intros Hp Hne Htok Hjwt Hrow Hown Hfile.
  apply String.eqb_neq in Hne, Hown.
  destruct (handlerUploadVideo rev env cfg req w) as [o w'] eqn:Hrun.
  destruct rev;
    (destruct Hfile as [Hrev | (f & Hform & Hsize & Htype)];
     [try discriminate Hrev |]).
  all: try (apply String.eqb_eq in Htype;
            apply Z.ltb_ge, negb_true_iff in Hsize;
            pose proof (max_upload_size_is_1GiB videos_ts) as E1;
            pose proof (max_upload_size_is_1GiB part_001) as E2;
            cbn [max_upload_size] in E1, E2;
            rewrite <- E1 in Hsize;
            pose proof Hsize as Hsize'; rewrite E1, <- E2 in Hsize').
  all: run Hrun.
  all: injection Hrun as <- <-; reflexivity.
Qed.

(** A file field beyond the ceiling ends the run with the world as it
    was; once the checks that come before the size check are passed, it
    ends with the size error. *)
Lemma oversize_rejected (rev : Revision) env cfg req w f :
  form req !! "video" = Some (FormFile f) ->
  (2 ^ 30 < file_size f)%Z ->
  (exists e, handlerUploadVideo rev env cfg req w = (Thrown e, w)) /\
  (forall videoId token user,
      param_videoId req = Some videoId -> videoId <> "" ->
      getBearerToken env (authorization req) = Some token ->
      validateJWT env token (jwtSecret cfg) = Some user ->
      (rev = part_000 ->
       exists row : VideoRow, db w !! videoId = Some row /\ row_userID row = user) ->
      handlerUploadVideo rev env cfg req w = (Thrown (too_large rev), w)).
Proof.
  intros Hform Hsize.
  assert (forall r, negb (max_upload_size r <? file_size f)%Z = false) as Ht.
  { intros r. rewrite max_upload_size_is_1GiB.
    apply negb_false_iff, Z.ltb_lt. exact Hsize. }
  pose proof (Ht videos_ts) as T1. pose proof (Ht part_000) as T2.
  pose proof (Ht part_001) as T3. cbn [max_upload_size] in T1, T2, T3.
  clear Ht. split.
  - destruct (handlerUploadVideo rev env cfg req w) as [o w'] eqn:Hrun.
    destruct rev; run Hrun.
    all: injection Hrun as <- <-; eexists; reflexivity.
  - intros videoId token user Hp Hne Htok Hjwt Hrow.
    apply String.eqb_neq in Hne.
    destruct (handlerUploadVideo rev env cfg req w) as [o w'] eqn:Hrun.
    destruct rev.
    2: { destruct (Hrow eq_refl) as (row & Hr & Hu).
         apply String.eqb_eq in Hu. run Hrun.
         all: injection Hrun as <- <-; reflexivity. }
    all: clear Hrow; run Hrun.
    all: injection Hrun as <- <-; reflexivity.
Qed.

(** A file field within the ceiling never meets the size error. *)
Lemma within_ceiling_passes (rev : Revision) env cfg req w f w' :
  form req !! "video" = Some (FormFile f) ->
  (file_size f <= 2 ^ 30)%Z ->
  handlerUploadVideo rev env cfg req w <> (Thrown (too_large rev), w').
Proof.
  intros Hform Hsize Hrun.
  assert (forall r, negb (max_upload_size r <? file_size f)%Z = true) as Ht.
  { intros r. rewrite max_upload_size_is_1GiB.
    apply negb_true_iff, Z.ltb_ge. exact Hsize. }
  pose proof (Ht videos_ts) as T1. pose proof (Ht part_000) as T2.
  pose proof (Ht part_001) as T3. cbn [max_upload_size] in T1, T2, T3.
  clear Ht.
  destruct rev; unfold_revision; run Hrun.
Qed.

(** The buffering step of a validated request: a refused write names
    the path, and any later failure short of a failed closing deletion
    leaves the payload there. *)
Lemma buffered_at (rev : Revision) env cfg req w videoId row f :
  validated env cfg req w videoId row f ->
  let filePath := buffer_path rev env cfg videoId in
  (refused env (DiskWrite filePath) = true ->
   handlerUploadVideo rev env cfg req w =
     (Thrown (IoError (DiskWrite filePath)), w)) /\
  (refused env (DiskWrite filePath) = false ->
   forall e w',
     handlerUploadVideo rev env cfg req w = (Thrown e, w') ->
     cleanup_failure e = false ->
     disk w' !! filePath = Some (file_data f)).
Proof.
  intros Hv filePath. subst filePath. split.
  - intros Hw.
    destruct (handlerUploadVideo rev env cfg req w) as [o w'] eqn:Hrun.
    destruct rev; open_validated Hv; unfold_revision; run Hrun.
    all: injection Hrun as <- <-; reflexivity.
  - intros Hw e w' Hrun He.
    destruct rev; open_validated Hv; unfold_revision; run Hrun.
    all: injection Hrun as <- <-; simplify_eq.
    all: try discriminate He.
    all: cbn [disk]; lookups; reflexivity.
Qed.

(** *** Thumbnails *)

(** An upload never files a thumbnail under a key other than the name
    it drew. *)
Lemma upload_thumbnail_keys env cfg req w o w' (key : string) :
  Thumbnails.handlerUploadThumbnail env cfg req w = (o, w') ->
  key <> randomName env ->
  videoThumbnails w' !! key = videoThumbnails w !! key.
Proof.
  intros H Hk. run H.
  all: injection H as <- <-; cbn [videoThumbnails]; try reflexivity.
  all: apply lookup_insert_ne; congruence.
Qed.

Lemma upload_thumbnail_success env cfg req w r w' :
  Thumbnails.handlerUploadThumbnail env cfg req w = (Returned r, w') ->
  exists videoId row f,
    param_videoId req = Some videoId /\ videoId <> "" /\
    db w !! videoId = Some row /\
    form req !! "thumbnail" = Some (FormFile f) /\
    is_Some (db w' !! videoId) /\
    videoThumbnails w' =
      <[randomName env :=
          {| data := file_data f; mediaType := file_type f |}]>
        (videoThumbnails w).
Proof.
  intros H. run H.
  all: injection H as <- <-; settle.
  all: match goal with
       | Hs : form _ !! "thumbnail" = Some (FormFile ?f),
         Hp : param_videoId _ = Some ?v,
         Hr : db _ !! ?v = Some ?row |- _ => exists v, row, f
       end.
  all: cbn [db videoThumbnails]; split_and!; try assumption; try reflexivity.
  all: try (rewrite lookup_insert_eq; eauto).
  all: eauto.
Qed.

(** *** What the runs leave behind *)

Lemma upload_failure_not_cleanup e :
  upload_failure e = true -> cleanup_failure e = false.
Proof. destruct e as [| | | | | []]; simpl; congruence. Qed.

(** What is left of the two temporary files when a run has returned its
    response: the revision using the distribution address removes both;
    videos.ts removes the processed copy and leaves the buffered upload;
    the revision buffering under the video identifier removes the
    buffered upload and leaves the processed copy, whose name carries a
    double quote that the removal does not spell. *)
Lemma temporary_files_after_success (rev : Revision) env cfg req w r w' :
  handlerUploadVideo rev env cfg req w = (Returned r, w') ->
  exists videoId f content,
    param_videoId req = Some videoId /\
    form req !! "video" = Some (FormFile f) /\
    let filePath := buffer_path rev env cfg videoId in
    match rev with
    | part_001 =>
        disk w' !! filePath = None /\
        disk w' !! fast_start_path rev filePath = None
    | videos_ts =>
        disk w' !! filePath = Some (file_data f) /\
        disk w' !! fast_start_path rev filePath = None
    | part_000 =>
        disk w' !! filePath = None /\
        disk w' !! fast_start_path rev filePath = Some content
    end.
Proof.
  intros Hrun. apply upload_success in Hrun.
  destruct Hrun as (v & row & f & c & content & Hv & _ & Hc & _ & _ & Hd & _).
  destruct Hv as (Hp & _ & _ & _ & Hf & _).
  exists v, f, content. split; [exact Hp |]. split; [exact Hf |].
  pose proof (disk_after_remux_raw rev env cfg v (file_data f) (disk w)) as Hraw.
  cbv zeta in Hc, Hd |- *. rewrite Hd.
  destruct rev; cbn [cleanup]; unfold_revision; lookups; auto.
Qed.

(** *** Runs of the concrete deployment *)

Lemma alice_upload_probed (remux : gmap string bytes -> string -> string -> RemuxOutput)
    (name path : string) (d : gmap string bytes) :
  probed (Fixture.env_with remux name)
    (<[path := file_data (Fixture.mp4 1000)]> d) path landscape.
Proof.
  exists 1280%Z, 720%Z, []. cbn [ffprobe Fixture.env_with].
  unfold Fixture.probe_720p. rewrite lookup_insert_eq.
  cbn [probe_exit probe_json]. split_and!; try reflexivity; discriminate.
Qed.

Lemma pair_eta {A B : Type} (p : A * B) (a : A) : p.1 = a -> p = (a, p.2).
Proof. destruct p. simpl. congruence. Qed.

Lemma alice_upload_validated (e : Env) :
  getBearerToken e = Fixture.bearer -> validateJWT e = Fixture.jwt ->
  validated e Fixture.cfg Fixture.alice_upload Fixture.world0
    "vid-1" Fixture.video1 (Fixture.mp4 1000).
Proof.
  intros Hb Hj. unfold validated. split_and!; try reflexivity.
  - discriminate.
  - exists "token-of-alice". rewrite Hb, Hj. split; reflexivity.
  - vm_compute. discriminate.
Qed.

(* ===================================================================== *)
(** ** The claims of the specification *)
(* ===================================================================== *)

(** C1 (as amended): if the fast-start remux step fails with a non-zero
    tool exit, the handler propagates the remux error, no object is
    written to the blob store and the video record is not changed; the
    raw buffered temporary file is not deleted: it is still on disk, at
    the path it was buffered to, when the error propagates.  This holds
    in each of the three revisions. *)
Theorem C1_remux_failure_keeps_raw_file
    (rev : Revision) env cfg req w videoId row f c :
  validated env cfg req w videoId row f ->
  let filePath := buffer_path rev env cfg videoId in
  let buffered := <[filePath := file_data f]> (disk w) in
  let out := ffmpeg env buffered filePath (fast_start_path rev filePath) in
  refused env (DiskWrite filePath) = false ->
  probed env buffered filePath c ->
  remux_exit out <> 0%Z ->
  exists w',
    handlerUploadVideo rev env cfg req w = (Thrown (remux_error rev out), w') /\
    bucket w' = bucket w /\
    db w' = db w /\
    disk w' !! filePath = Some (file_data f).
Proof.
  intros Hv filePath buffered out Hw Hp Hx.
  subst filePath buffered out.
  apply probed_tests in Hp. destruct Hp as (wd & ht & rest & ? & ? & ? & ->).
  apply Z.eqb_neq in Hx.
  destruct (handlerUploadVideo rev env cfg req w) as [o w'] eqn:Hrun.
  destruct rev; open_validated Hv; unfold_revision; run Hrun.
  all: injection Hrun as <- <-; simplify_eq.
  all: eexists; split_and!; try reflexivity.
  all: cbn [disk]; lookups; reflexivity.
Qed.

Lemma C1_remux_failure_keeps_raw_file_witness :
  exists w',
    Part000.handlerUploadVideo Fixture.env_broken Fixture.cfg
      Fixture.alice_upload Fixture.world0 =
      (Thrown (JsError "FFmpeg error: moov atom not found"), w') /\
    bucket w' = bucket Fixture.world0 /\
    db w' = db Fixture.world0 /\
    disk w' !! "/tmp/vid-1.mp4" = Some (file_data (Fixture.mp4 1000)).
Proof.
  apply (C1_remux_failure_keeps_raw_file part_000 Fixture.env_broken
           Fixture.cfg Fixture.alice_upload Fixture.world0 "vid-1"
           Fixture.video1 (Fixture.mp4 1000) landscape).
  - apply alice_upload_validated; reflexivity.
  - reflexivity.
  - apply alice_upload_probed.
  - vm_compute. discriminate.
Defined.

(** C1 (as stated) fails: in this run the remux exits with code 1 and
    its error propagates, yet the raw buffered file is still on disk. *)
Lemma C1_raw_file_survives_remux_failure :
  (Part000.handlerUploadVideo Fixture.env_broken Fixture.cfg
     Fixture.alice_upload Fixture.world0).1 =
    Thrown (JsError "FFmpeg error: moov atom not found") /\
  disk (Part000.handlerUploadVideo Fixture.env_broken Fixture.cfg
          Fixture.alice_upload Fixture.world0).2 !! "/tmp/vid-1.mp4" =
    Some (file_data (Fixture.mp4 1000)).
Proof. vm_compute. split; reflexivity. Qed.

(** C2: on every exit with one of the failures of section 7 (bad
    request, authentication, authorisation, lookup, probe, remux,
    blob-store write) the stored video record is left as it was, in
    each revision: [updateVideo] comes after the blob-store write.  In
    particular a valid request by an authenticated user who does not own
    the video fails with [UserForbiddenError] and changes nothing. *)
Theorem C2_failure_leaves_record_unmodified (rev : Revision) env cfg req w :
  (forall e w',
      handlerUploadVideo rev env cfg req w = (Thrown e, w') ->
      upload_failure e = true ->
      db w' = db w) /\
  (forall videoId token user (row : VideoRow),
      param_videoId req = Some videoId -> videoId <> "" ->
      getBearerToken env (authorization req) = Some token ->
      validateJWT env token (jwtSecret cfg) = Some user ->
      db w !! videoId = Some row ->
      row_userID row <> user ->
      (rev = part_000 \/
       exists f : FileField,
         form req !! "video" = Some (FormFile f) /\
         (file_size f <= 2 ^ 30)%Z /\ file_type f = "video/mp4") ->
      handlerUploadVideo rev env cfg req w =
        (Thrown (UserForbiddenError "Not authorized to update this video"),
         w)).
Proof.
  split.
  - intros e w' Hrun He.
    apply (failure_keeps_record rev env cfg req w e w' Hrun).
    now apply upload_failure_not_cleanup.
  - intros videoId token user row. apply not_owner_forbidden.
Qed.

Lemma C2_failure_leaves_record_unmodified_witness :
  exists w',
    handlerUploadVideo videos_ts Fixture.env Fixture.cfg Fixture.bob_upload
      Fixture.world0 =
      (Thrown (UserForbiddenError "Not authorized to update this video"), w')
    /\ db w' = db Fixture.world0.
Proof.
  assert (handlerUploadVideo videos_ts Fixture.env Fixture.cfg
            Fixture.bob_upload Fixture.world0 =
          (Thrown (UserForbiddenError "Not authorized to update this video"),
           Fixture.world0)) as Hrun.
  { apply (proj2 (C2_failure_leaves_record_unmodified videos_ts Fixture.env
                    Fixture.cfg Fixture.bob_upload Fixture.world0)
             "vid-1" "token-of-bob" "bob" Fixture.video1);
      try reflexivity; try discriminate.
    right. exists (Fixture.mp4 1000). split_and!; try reflexivity.
    vm_compute. discriminate. }
  exists Fixture.world0. split; [exact Hrun |].
  apply (proj1 (C2_failure_leaves_record_unmodified videos_ts Fixture.env
                  Fixture.cfg Fixture.bob_upload Fixture.world0)
           _ _ Hrun).
  reflexivity.
Defined.

(** C4 (as amended): a successful upload writes exactly one object to
    the blob store, under the key of its revision.  In the revision that
    buffers under the video identifier the key is
    <class>/<videoId>.mp4, a function of the aspect class and the video
    identifier alone, so a second successful upload for the same video
    and class replaces the object of the first and the store holds the
    same keys as before.  In the other two revisions the key is built
    from the name drawn at random (under the assets root and the class
    in videos.ts, under the class in the other), and does not depend on
    the video identifier. *)
Theorem C4_storage_key :
  (forall rev env cfg req w r w',
      handlerUploadVideo rev env cfg req w = (Returned r, w') ->
      exists videoId row f c content,
        validated env cfg req w videoId row f /\
        probed env
          (<[buffer_path rev env cfg videoId := file_data f]> (disk w))
          (buffer_path rev env cfg videoId) c /\
        bucket w' =
          <[storage_key rev env cfg c videoId :=
              {| body := content; contentType := stored_type rev |}]>
            (bucket w)) /\
  (forall env cfg c videoId,
      storage_key part_000 env cfg c videoId =
        aspectName c +:+ "/" +:+ videoId +:+ ".mp4" /\
      storage_key videos_ts env cfg c videoId =
        Path.join [assetsRoot cfg; aspectName c; "/";
                   randomName env +:+ ".mp4"] /\
      storage_key part_001 env cfg c videoId =
        aspectName c +:+ "/" +:+ randomName env +:+ ".mp4") /\
  (forall env1 cfg1 req1 w r1 w1 env2 cfg2 req2 r2 w2 videoId f1 f2 c,
      handlerUploadVideo part_000 env1 cfg1 req1 w = (Returned r1, w1) ->
      handlerUploadVideo part_000 env2 cfg2 req2 w1 = (Returned r2, w2) ->
      param_videoId req1 = Some videoId ->
      param_videoId req2 = Some videoId ->
      form req1 !! "video" = Some (FormFile f1) ->
      form req2 !! "video" = Some (FormFile f2) ->
      probed env1
        (<[buffer_path part_000 env1 cfg1 videoId := file_data f1]> (disk w))
        (buffer_path part_000 env1 cfg1 videoId) c ->
      probed env2
        (<[buffer_path part_000 env2 cfg2 videoId := file_data f2]> (disk w1))
        (buffer_path part_000 env2 cfg2 videoId) c ->
      dom (bucket w2) = dom (bucket w1) /\
      exists content,
        bucket w2 =
          <[aspectName c +:+ "/" +:+ videoId +:+ ".mp4" :=
              {| body := content; contentType := Some "video/mp4" |}]>
            (bucket w)).
Proof.
  split_and!.
  - intros rev env cfg req w r w' Hrun.
    apply upload_success in Hrun.
    destruct Hrun as (v & row & f & c & content & Hv & Hp & _ & _ & _ & _
                      & Hb & _).
    exists v, row, f, c, content. auto.
  - intros. split_and!; reflexivity.
  - intros env1 cfg1 req1 w r1 w1 env2 cfg2 req2 r2 w2 videoId f1 f2 c
           Hrun1 Hrun2 Hp1 Hp2 Hf1 Hf2 Hc1 Hc2.
    apply upload_success in Hrun1, Hrun2.
    destruct Hrun1 as (v1 & row1 & g1 & c1 & content1 & Hv1 & Hpr1 & _ & _
                       & _ & _ & Hb1 & _).
    destruct Hrun2 as (v2 & row2 & g2 & c2 & content2 & Hv2 & Hpr2 & _ & _
                       & _ & _ & Hb2 & _).
    destruct Hv1 as (Hq1 & _ & _ & _ & Hg1 & _).
    destruct Hv2 as (Hq2 & _ & _ & _ & Hg2 & _).
    assert (v1 = videoId) by congruence. assert (v2 = videoId) by congruence.
    assert (g1 = f1) by congruence. assert (g2 = f2) by congruence.
    subst v1 v2 g1 g2.
    pose proof (probed_functional _ _ _ _ _ Hpr1 Hc1).
    pose proof (probed_functional _ _ _ _ _ Hpr2 Hc2).
    subst c1 c2. cbn [storage_key stored_type] in Hb1, Hb2.
    split.
    + rewrite Hb2. apply dom_insert_lookup_L.
      rewrite Hb1, lookup_insert_eq. eauto.
    + exists content2. rewrite Hb2, Hb1. apply insert_insert_eq.
Qed.

Lemma C4_storage_key_witness :
  dom (bucket Fixture.after_second) = dom (bucket Fixture.after_first) /\
  exists content,
    bucket Fixture.after_second =
      <["landscape/vid-1.mp4" :=
          {| body := content; contentType := Some "video/mp4" |}]>
        (bucket Fixture.world0).
Proof.
  apply (proj2 (proj2 C4_storage_key)
           Fixture.env Fixture.cfg Fixture.alice_upload Fixture.world0
           (JsonResponse 200
              (set_videoURL (video_of "vid-1" Fixture.video1)
                 "https://d111abcdef8.cloudfront.net/landscape/vid-1.mp4"))
           Fixture.after_first
           Fixture.env_again Fixture.cfg Fixture.alice_upload
           (JsonResponse 200
              (set_videoURL
                 (video_of "vid-1"
                    (row_of
                       (set_videoURL (video_of "vid-1" Fixture.video1)
                          "https://d111abcdef8.cloudfront.net/landscape/vid-1.mp4")))
                 "https://d111abcdef8.cloudfront.net/landscape/vid-1.mp4"))
           Fixture.after_second
           "vid-1" (Fixture.mp4 1000) (Fixture.mp4 1000) landscape).
  - apply pair_eta. vm_compute. reflexivity.
  - apply pair_eta. vm_compute. reflexivity.
  - reflexivity.
  - reflexivity.
  - reflexivity.
  - reflexivity.
  - apply alice_upload_probed.
  - apply alice_upload_probed.
Defined.

(** C4 (as stated) fails on videos.ts: two successful uploads for the
    same video, of the same class, leave two objects in the blob store,
    under keys made from the two names drawn, and none under
    landscape/vid-1.mp4. *)
Lemma C4_reupload_accumulates_objects :
  (VideosTs.handlerUploadVideo Fixture.env Fixture.cfg
     Fixture.alice_upload Fixture.world0).1 =
    Returned (JsonResponse 200
      {| id := "vid-1"; userID := "alice";
         videoURL := Some "https://tubely-1234.s3.us-east-2.amazonaws.com/assets/landscape/Zm9vYmFy.mp4";
         thumbnailURL := None |}) /\
  (VideosTs.handlerUploadVideo Fixture.env_again Fixture.cfg
     Fixture.alice_upload Fixture.after_first_ts).1 =
    Returned (JsonResponse 200
      {| id := "vid-1"; userID := "alice";
         videoURL := Some "https://tubely-1234.s3.us-east-2.amazonaws.com/assets/landscape/cXV1eHF1dXg.mp4";
         thumbnailURL := None |}) /\
  body <$> bucket Fixture.after_second_ts !! "assets/landscape/Zm9vYmFy.mp4" =
    Some (file_data (Fixture.mp4 1000)) /\
  body <$> bucket Fixture.after_second_ts
             !! "assets/landscape/cXV1eHF1dXg.mp4" =
    Some (file_data (Fixture.mp4 1000)) /\
  bucket Fixture.after_second_ts !! "landscape/vid-1.mp4" = None /\
  size (bucket Fixture.after_second_ts) = 2%nat.
Proof. vm_compute. split_and!; reflexivity. Qed.

(** C5: on a successful run both temporary files should be gone when
    the 200 response is returned.  They are not: in the revision that
    buffers under the video identifier the processed copy is still on
    disk after the run (and the buffered upload is gone), and in
    videos.ts the buffered upload is still on disk (and the processed
    copy is gone). *)
Theorem C5_temporary_files_left_behind :
  ((Part000.handlerUploadVideo Fixture.env Fixture.cfg Fixture.alice_upload
      Fixture.world0).1 =
     Returned (JsonResponse 200
       {| id := "vid-1"; userID := "alice";
          videoURL :=
            Some "https://d111abcdef8.cloudfront.net/landscape/vid-1.mp4";
          thumbnailURL := None |}) /\
   disk Fixture.after_first !! Fixture.quoted_path =
     Some (file_data (Fixture.mp4 1000)) /\
   disk Fixture.after_first !! "/tmp/vid-1.mp4" = None) /\
  ((VideosTs.handlerUploadVideo Fixture.env Fixture.cfg Fixture.alice_upload
      Fixture.world0).1 =
     Returned (JsonResponse 200
       {| id := "vid-1"; userID := "alice";
          videoURL := Some "https://tubely-1234.s3.us-east-2.amazonaws.com/assets/landscape/Zm9vYmFy.mp4";
          thumbnailURL := None |}) /\
   disk Fixture.after_first_ts !! "assets/Zm9vYmFy.mp4" =
     Some (file_data (Fixture.mp4 1000)) /\
   disk Fixture.after_first_ts !! "assets/Zm9vYmFy.mp4.processed" = None).
Proof. vm_compute. split_and!; reflexivity. Qed.

(** C6: the size ceiling of every revision is 2^30 bytes.  A request
    whose file field is larger ends in an error with the world as it
    was, so no temporary file has been created; once the checks the
    revision makes before the size check are passed (the identifier and
    the credential, and in the revision buffering under the video
    identifier also the lookup and the ownership), the error is the
    bad-request error of the size check.  A file field of exactly 2^30
    bytes passes the size check. *)
Theorem C6_oversize_rejected_before_buffering
    (rev : Revision) env cfg req w f :
  form req !! "video" = Some (FormFile f) ->
  max_upload_size rev = (2 ^ 30)%Z /\
  (exists msg, too_large rev = BadRequestError msg) /\
  ((2 ^ 30 < file_size f)%Z ->
   (exists e, handlerUploadVideo rev env cfg req w = (Thrown e, w)) /\
   (forall videoId token user,
       param_videoId req = Some videoId -> videoId <> "" ->
       getBearerToken env (authorization req) = Some token ->
       validateJWT env token (jwtSecret cfg) = Some user ->
       (rev = part_000 ->
        exists row : VideoRow,
          db w !! videoId = Some row /\ row_userID row = user) ->
       handlerUploadVideo rev env cfg req w = (Thrown (too_large rev), w))) /\
  (file_size f = (2 ^ 30)%Z ->
   forall w', handlerUploadVideo rev env cfg req w <> (Thrown (too_large rev), w')).
Proof.
  intros Hform. split_and!.
  - apply max_upload_size_is_1GiB.
  - destruct rev; eexists; reflexivity.
  - intros Hsize. exact (oversize_rejected rev env cfg req w f Hform Hsize).
  - intros Hsize w'. apply (within_ceiling_passes rev env cfg req w f w' Hform).
    lia.
Qed.

Lemma C6_oversize_rejected_before_buffering_witness :
  handlerUploadVideo part_000 Fixture.env Fixture.cfg Fixture.huge_upload
    Fixture.world0 =
    (Thrown (BadRequestError "File exceeds size limit (1GB)"), Fixture.world0)
  /\
  handlerUploadVideo part_000 Fixture.env Fixture.cfg Fixture.full_upload
    Fixture.world0 <>
    (Thrown (BadRequestError "File exceeds size limit (1GB)"), Fixture.world0).
Proof.
  split.
  - refine (proj2 (proj1 (proj2 (proj2
              (C6_oversize_rejected_before_buffering part_000 Fixture.env
                 Fixture.cfg Fixture.huge_upload Fixture.world0
                 (Fixture.mp4 (2 ^ 30 + 1)) eq_refl))) _)
              "vid-1" "token-of-alice" "alice" eq_refl _ eq_refl eq_refl _).
    + vm_compute. reflexivity.
    + discriminate.
    + intros _. exists Fixture.video1. split; reflexivity.
  - refine (proj2 (proj2 (proj2
              (C6_oversize_rejected_before_buffering part_000 Fixture.env
                 Fixture.cfg Fixture.full_upload Fixture.world0
                 (Fixture.mp4 (2 ^ 30)) eq_refl))) _ Fixture.world0).
    reflexivity.
Defined.

(** C7 (as amended): on a successful upload the playback URL written
    into the video record is the public base address of the revision, a
    slash, and the storage key under which the object was written to the
    blob store, for every configuration and every request.  Only in the
    revision buffering under the video identifier is the base address the
    configured distribution address; in the other unnamed revision it is
    that address behind an https scheme, and in videos.ts it is the
    regional address of the configured bucket, the distribution address
    not being read. *)
Theorem C7_playback_url (rev : Revision) env cfg req w r w' :
  handlerUploadVideo rev env cfg req w = (Returned r, w') ->
  exists videoId (row : VideoRow) c object,
    let key := storage_key rev env cfg c videoId in
    let url := base_address rev cfg +:+ "/" +:+ key in
    param_videoId req = Some videoId /\
    db w !! videoId = Some row /\
    bucket w' !! key = Some object /\
    db w' !! videoId =
      Some {| row_userID := row_userID row; row_videoURL := Some url;
              row_thumbnailURL := row_thumbnailURL row |} /\
    r = JsonResponse 200
          {| id := videoId; userID := row_userID row; videoURL := Some url;
             thumbnailURL := row_thumbnailURL row |} /\
    base_address part_000 cfg = s3CfDistribution cfg /\
    base_address part_001 cfg = "https://" +:+ s3CfDistribution cfg /\
    base_address videos_ts cfg =
      "https://" +:+ s3Bucket cfg +:+ ".s3." +:+ s3Region cfg
      +:+ ".amazonaws.com".
Proof.
  intros Hrun. apply upload_success in Hrun.
  destruct Hrun as (v & row & f & c & content & Hv & _ & _ & Hr & Hdb & _
                    & Hb & _).
  destruct Hv as (Hp & _ & _ & Hrow & _).
  exists v, row, c, {| body := content; contentType := stored_type rev |}.
  cbv zeta in *. split_and!; try reflexivity; try assumption.
  - rewrite Hb. apply lookup_insert_eq.
  - rewrite Hdb. apply lookup_insert_eq.
Qed.

Lemma C7_playback_url_witness :
  exists videoId (row : VideoRow) c object,
    let key := storage_key part_000 Fixture.env Fixture.cfg c videoId in
    let url := s3CfDistribution Fixture.cfg +:+ "/" +:+ key in
    param_videoId Fixture.alice_upload = Some videoId /\
    db Fixture.world0 !! videoId = Some row /\
    bucket Fixture.after_first !! key = Some object /\
    db Fixture.after_first !! videoId =
      Some {| row_userID := row_userID row; row_videoURL := Some url;
              row_thumbnailURL := row_thumbnailURL row |}.
Proof.
  destruct (C7_playback_url part_000 Fixture.env Fixture.cfg
              Fixture.alice_upload Fixture.world0
              (JsonResponse 200
                 (set_videoURL (video_of "vid-1" Fixture.video1)
                    "https://d111abcdef8.cloudfront.net/landscape/vid-1.mp4"))
              Fixture.after_first)
    as (v & row & c & object & Hp & Hrow & Hb & Hdb & _).
  - apply pair_eta. vm_compute. reflexivity.
  - exists v, row, c, object. auto.
Defined.

(** C7, the claim as worded: the upload of the owner succeeds in
    videos.ts and in the revision using the distribution address, the
    object is in the blob store under its key, and the playback URL in
    the record is not the configured distribution address, a slash and
    that key.  videos.ts answers with the address of the bucket, the
    other revision with the distribution address behind a second
    scheme. *)
Lemma C7_url_is_not_distribution_address_and_key :
  let uploaded (rev : Revision) :=
    handlerUploadVideo rev Fixture.env Fixture.cfg Fixture.alice_upload
      Fixture.world0 in
  let key (rev : Revision) :=
    storage_key rev Fixture.env Fixture.cfg landscape "vid-1" in
  let recorded (rev : Revision) (url : string) :=
    (uploaded rev).1 =
      Returned
        (JsonResponse 200
           {| id := "vid-1"; userID := "alice"; videoURL := Some url;
              thumbnailURL := None |}) /\
    bucket (uploaded rev).2 !! key rev =
      Some {| body := file_data (Fixture.mp4 1000);
              contentType := stored_type rev |} /\
    db (uploaded rev).2 !! "vid-1" =
      Some {| row_userID := "alice"; row_videoURL := Some url;
              row_thumbnailURL := None |} /\
    url <> s3CfDistribution Fixture.cfg +:+ "/" +:+ key rev in
  recorded videos_ts
    "https://tubely-1234.s3.us-east-2.amazonaws.com/assets/landscape/Zm9vYmFy.mp4" /\
  recorded part_001
    "https://https://d111abcdef8.cloudfront.net/landscape/Zm9vYmFy.mp4".
Proof.
  cbv zeta.
  split_and!; try (vm_compute; reflexivity); vm_compute; discriminate.
Qed.

(** C8 (as amended): the payload of a validated request is buffered at
    the path of the revision: a refused write fails naming that path,
    and after an accepted write every failure short of a failed closing
    deletion leaves the payload at that path.  In the revision buffering
    under the video identifier the path is /tmp/<videoId>.mp4, a
    function of the video identifier alone; in videos.ts and in the
    other unnamed revision it is <random name>.mp4 under the configured
    assets root, which does not depend on the video identifier, so two
    runs for the same video buffer to the paths of the two names they
    draw. *)
Theorem C8_buffer_path (rev : Revision) env cfg req w videoId row f :
  validated env cfg req w videoId row f ->
  let filePath := buffer_path rev env cfg videoId in
  (refused env (DiskWrite filePath) = true ->
   handlerUploadVideo rev env cfg req w =
     (Thrown (IoError (DiskWrite filePath)), w)) /\
  (refused env (DiskWrite filePath) = false ->
   forall e w',
     handlerUploadVideo rev env cfg req w = (Thrown e, w') ->
     cleanup_failure e = false ->
     disk w' !! filePath = Some (file_data f)) /\
  buffer_path part_000 env cfg videoId =
    Path.join ["/tmp"; videoId +:+ ".mp4"] /\
  buffer_path videos_ts env cfg videoId =
    Path.join [assetsRoot cfg; randomName env +:+ ".mp4"] /\
  buffer_path part_001 env cfg videoId =
    Path.join [assetsRoot cfg; randomName env +:+ ".mp4"].
Proof.
  intros Hv filePath.
  destruct (buffered_at rev env cfg req w videoId row f Hv) as [Ha Hb].
  split_and!; try reflexivity; assumption.
Qed.

Lemma C8_buffer_path_witness :
  handlerUploadVideo part_000 Fixture.env_readonly Fixture.cfg
    Fixture.alice_upload Fixture.world0 =
    (Thrown (IoError (DiskWrite "/tmp/vid-1.mp4")), Fixture.world0).
Proof.
  refine (proj1 (C8_buffer_path part_000 Fixture.env_readonly Fixture.cfg
                   Fixture.alice_upload Fixture.world0 "vid-1" Fixture.video1
                   (Fixture.mp4 1000) _) _).
  - apply alice_upload_validated; reflexivity.
  - reflexivity.
Defined.

(** C8 (as stated) fails on videos.ts: two runs for the same video
    identifier, from the same world, buffer the payload at two
    different paths, each made from the name the run drew. *)
Lemma C8_same_video_two_buffer_paths :
  param_videoId Fixture.alice_upload = Some "vid-1" /\
  disk (VideosTs.handlerUploadVideo Fixture.env Fixture.cfg
          Fixture.alice_upload Fixture.world0).2 !! "assets/Zm9vYmFy.mp4" =
    Some (file_data (Fixture.mp4 1000)) /\
  disk (VideosTs.handlerUploadVideo Fixture.env_again Fixture.cfg
          Fixture.alice_upload Fixture.world0).2 !! "assets/Zm9vYmFy.mp4" =
    None /\
  disk (VideosTs.handlerUploadVideo Fixture.env_again Fixture.cfg
          Fixture.alice_upload Fixture.world0).2 !! "assets/cXV1eHF1dXg.mp4" =
    Some (file_data (Fixture.mp4 1000)).
Proof. vm_compute. split_and!; reflexivity. Qed.

(** C10: a [handlerGetThumbnail] call made after a successful
    [handlerUploadThumbnail] for the same video identifier fails with
    NotFoundError, Thumbnail not found: the upload files the thumbnail
    under the name it drew at random, the get handler looks under the
    video identifier.  (The map holds nothing under the identifier
    before the upload, as at process start, and the name drawn is not
    the identifier.) *)
Theorem C10_thumbnail_round_trip_fails env cfg req w r w' videoId :
  Thumbnails.handlerUploadThumbnail env cfg req w = (Returned r, w') ->
  param_videoId req = Some videoId ->
  videoThumbnails w !! videoId = None ->
  randomName env <> videoId ->
  forall cfg' req',
    param_videoId req' = Some videoId ->
    Thumbnails.handlerGetThumbnail cfg' req' w' =
      (Thrown (NotFoundError "Thumbnail not found"), w').
Proof.
  intros Hup Hp Hnone Hname cfg' req' Hp'.
  assert (videoThumbnails w' !! videoId = None) as Hnone'.
  { rewrite (upload_thumbnail_keys env cfg req w _ w' videoId Hup); auto. }
  apply upload_thumbnail_success in Hup.
  destruct Hup as (v & row & f & Hq & Hne & _ & _ & [row' Hrow'] & _).
  assert (v = videoId) by congruence. subst v.
  apply String.eqb_neq in Hne.
  destruct (Thumbnails.handlerGetThumbnail cfg' req' w') as [o w''] eqn:Hget.
  run Hget.
  all: injection Hget as <- <-; reflexivity.
Qed.

Lemma C10_thumbnail_round_trip_fails_witness :
  Thumbnails.handlerGetThumbnail Fixture.cfg Fixture.thumbnail_get
    Fixture.after_thumbnail =
    (Thrown (NotFoundError "Thumbnail not found"), Fixture.after_thumbnail).
Proof.
  refine (C10_thumbnail_round_trip_fails Fixture.env Fixture.cfg
            Fixture.thumbnail_upload Fixture.world0
            (JsonResponse 200
               {| id := "vid-1"; userID := "alice"; videoURL := None;
                  thumbnailURL :=
                    Some "http://localhost:8091/assets/Zm9vYmFy.png" |})
            Fixture.after_thumbnail "vid-1" _ eq_refl eq_refl _
            Fixture.cfg Fixture.thumbnail_get eq_refl).
  - apply pair_eta. vm_compute. reflexivity.
  - discriminate.
Defined.

(* ===================================================================== *)
(** ** Further properties: media types and asset names *)
(* ===================================================================== *)

Section SplitFacts.

Lemma rev_app_append (a b c : string) :
  String.rev_app a b +:+ c = String.rev_app a (b +:+ c).
Proof.
  revert b. induction a as [| ch a IH]; intros b; [reflexivity |].
  cbn [String.rev_app]. rewrite IH. reflexivity.
Qed.

Lemma split_aux_none (sep : ascii) (s cur : string) :
  occurrences sep s = 0%nat ->
  Str.split_aux sep s cur = [String.rev cur +:+ s].
Proof.
  revert cur. induction s as [| c s IH]; intros cur Hs.
  - cbn [Str.split_aux]. now rewrite append_nil_r.
  - cbn [occurrences] in Hs. cbn [Str.split_aux].
    destruct (Ascii.eqb c sep); [discriminate Hs |].
    rewrite IH by exact Hs. unfold String.rev. cbn [String.rev_app].
    rewrite !rev_app_append. reflexivity.
Qed.

Lemma split_aux_length (sep : ascii) (s cur : string) :
  length (Str.split_aux sep s cur) = S (occurrences sep s).
Proof.
  revert cur. induction s as [| c s IH]; intros cur; [reflexivity |].
  cbn [occurrences Str.split_aux].
  destruct (Ascii.eqb c sep); cbn [length]; rewrite IH; reflexivity.
Qed.

Lemma split_aux_first (sep : ascii) (a b cur : string) :
  occurrences sep a = 0%nat ->
  Str.split_aux sep (a +:+ String sep b) cur =
    (String.rev cur +:+ a) :: Str.split_aux sep b "".
Proof.
  revert cur. induction a as [| c a IH]; intros cur Ha.
  - change ("" +:+ String sep b) with (String sep b).
    cbn [Str.split_aux]. rewrite Ascii.eqb_refl, append_nil_r. reflexivity.
  - cbn [occurrences] in Ha.
    change (String c a +:+ String sep b) with (String c (a +:+ String sep b)).
    cbn [Str.split_aux].
    destruct (Ascii.eqb c sep); [discriminate Ha |].
    rewrite IH by exact Ha. unfold String.rev. cbn [String.rev_app].
    rewrite !rev_app_append. reflexivity.
Qed.

End SplitFacts.

(** X1: [mediaTypeToExt] answers .bin for every media type that does not
    hold exactly one slash, and the subtype behind a dot for every media
    type of the form type/subtype. *)
Theorem X1_mediaTypeToExt (mediaType type_ subtype : string) :
  (occurrences "/" mediaType <> 1%nat ->
   Assets.mediaTypeToExt mediaType = ".bin") /\
  (occurrences "/" type_ = 0%nat -> occurrences "/" subtype = 0%nat ->
   Assets.mediaTypeToExt (type_ +:+ "/" +:+ subtype) = "." +:+ subtype).
Proof.
  split.
  - intros Hn. unfold Assets.mediaTypeToExt, Str.split.
    rewrite split_aux_length.
    destruct (Nat.eqb_spec (S (occurrences "/" mediaType)) 2) as [E | E].
    + exfalso. apply Hn. lia.
    + reflexivity.
  - intros Ht Hs. unfold Assets.mediaTypeToExt, Str.split.
    change (type_ +:+ "/" +:+ subtype) with (type_ +:+ String "/" subtype).
    rewrite split_aux_first by exact Ht.
    rewrite split_aux_none by exact Hs.
    reflexivity.
Qed.

Lemma X1_mediaTypeToExt_witness :
  Assets.mediaTypeToExt "application/octet/stream" = ".bin" /\
  Assets.mediaTypeToExt ("image" +:+ "/" +:+ "png") = "." +:+ "png".
Proof.
  split.
  - apply (proj1 (X1_mediaTypeToExt "application/octet/stream" "" "")).
    vm_compute. lia.
  - apply (proj2 (X1_mediaTypeToExt "" "image" "png")); reflexivity.
Defined.

(* ===================================================================== *)
(** ** Further properties: loading the configuration *)
(* ===================================================================== *)

(** Follow [envOrThrow] on one variable. *)
Ltac read_variable environ k :=
  destruct (environ !! k) as [? |] eqn:?;
  [match goal with
   | |- context [String.eqb ?x ""] => destruct (String.eqb x "") eqn:?
   end |];
  cbn [negb Config.and_then find]; try reflexivity.

(** The first element of a list that passes a test splits the list. *)
Lemma find_first {A} (f : A -> bool) (l : list A) (x : A) :
  find f l = Some x ->
  exists before after,
    l = before ++ x :: after /\
    Forall (fun y => f y = false) before /\ f x = true.
Proof.
  induction l as [| y l IH]; intros Hfind; [discriminate Hfind |].
  cbn [find] in Hfind. destruct (f y) eqn:Hy.
  - injection Hfind as <-. exists [], l. split_and!; auto.
  - destruct (IH Hfind) as (before & after & -> & Hb & Hx).
    exists (y :: before), after. split_and!; auto.
Qed.

(** What loading does, read off the variables in the order of the
    module. *)
Lemma load_characterised (sys : Config.Constructors)
    (environ : gmap string string) :
  match List.find (fun key => negb (Config.is_set environ key))
          Config.read_before_client with
  | Some key =>
      Config.load sys environ = Thrown (JsError (key +:+ " must be set"))
  | None =>
      exists pathToDB_ jwtSecret_ platform_ filepathRoot_ assetsRoot_
             s3Bucket_ s3Region_ s3CfDistribution_ accessKeyId_
             secretAccessKey_,
        environ !! "DB_PATH" = Some pathToDB_ /\
        environ !! "JWT_SECRET" = Some jwtSecret_ /\
        environ !! "PLATFORM" = Some platform_ /\
        environ !! "FILEPATH_ROOT" = Some filepathRoot_ /\
        environ !! "ASSETS_ROOT" = Some assetsRoot_ /\
        environ !! "S3_BUCKET" = Some s3Bucket_ /\
        environ !! "S3_REGION" = Some s3Region_ /\
        environ !! "S3_CF_DISTRO" = Some s3CfDistribution_ /\
        environ !! "AWS_ACCESS_KEY_ID" = Some accessKeyId_ /\
        environ !! "AWS_SECRET_ACCESS_KEY" = Some secretAccessKey_ /\
        match Config.S3Client sys accessKeyId_ secretAccessKey_ s3Bucket_ with
        | Thrown e => Config.load sys environ = Thrown e
        | Returned _ =>
            if Config.is_set environ "PORT" then
              exists port_,
                environ !! "PORT" = Some port_ /\
                match Config.newDatabase sys pathToDB_ with
                | Thrown e => Config.load sys environ = Thrown e
                | Returned _ =>
                    Config.load sys environ =
                      Returned
                        {| Config.pathToDB := pathToDB_;
                           Config.accessKeyId := accessKeyId_;
                           Config.secretAccessKey := secretAccessKey_;
                           Config.cfg :=
                             {| jwtSecret := jwtSecret_;
                                platform := platform_;
                                filepathRoot := filepathRoot_;
                                assetsRoot := assetsRoot_;
                                s3Bucket := s3Bucket_;
                                s3Region := s3Region_;
                                s3CfDistribution := s3CfDistribution_;
                                port := port_ |} |}
                end
            else
              Config.load sys environ = Thrown (JsError "PORT must be set")
        end
  end.
Proof.
  unfold Config.load, Config.read_before_client, Config.is_set,
    Config.envOrThrow.
  cbn [find].
  read_variable environ "DB_PATH"; read_variable environ "JWT_SECRET";
  read_variable environ "PLATFORM"; read_variable environ "FILEPATH_ROOT";
  read_variable environ "ASSETS_ROOT"; read_variable environ "S3_BUCKET";
  read_variable environ "S3_REGION"; read_variable environ "S3_CF_DISTRO";
  read_variable environ "AWS_ACCESS_KEY_ID";
  read_variable environ "AWS_SECRET_ACCESS_KEY".
  do 10 eexists. split_and!; try reflexivity.
  destruct (Config.S3Client sys _ _ _) as [[] | e];
    cbn [Config.and_then]; [| reflexivity].
  read_variable environ "PORT".
  eexists. split; [reflexivity |].
  destruct (Config.newDatabase sys _) as [[] | e]; reflexivity.
Qed.

(** Conversely, a list split at the first element passing the test. *)
Lemma find_split {A} (f : A -> bool) (before after : list A) (x : A) :
  Forall (fun y => f y = false) before -> f x = true ->
  find f (before ++ x :: after) = Some x.
Proof.
  intros Hb Hx. induction Hb as [| y before Hy _ IH]; cbn [app find].
  - now rewrite Hx.
  - now rewrite Hy.
Qed.

Lemma all_set_find (environ : gmap string string) (l : list string) :
  find (fun key => negb (Config.is_set environ key)) l = None <->
  Forall (fun key => Config.is_set environ key = true) l.
Proof.
  induction l as [| k l IH]; cbn [find]; [split; auto |].
  destruct (Config.is_set environ k) eqn:Hk; cbn [negb].
  - rewrite IH. split; [auto | now inversion 1].
  - split; [discriminate | inversion 1; congruence].
Qed.

(** X2: the configuration module loads exactly when each of the eleven
    variables it reads is set to a non-empty value, the blob-store client
    is built from the two AWS variables and the bucket, and the database
    opens at DB_PATH; every field of the configuration then holds the
    value of its variable. *)
Theorem X2_config_loads_iff_set_and_built
    (sys : Config.Constructors) (environ : gmap string string) :
  ((exists l, Config.load sys environ = Returned l) <->
   Forall (fun key => Config.is_set environ key = true) Config.required /\
   Config.client_call sys environ (Returned tt) /\
   Config.database_call sys environ (Returned tt)) /\
  (forall l, Config.load sys environ = Returned l ->
     environ !! "DB_PATH" = Some (Config.pathToDB l) /\
     environ !! "JWT_SECRET" = Some (jwtSecret (Config.cfg l)) /\
     environ !! "PLATFORM" = Some (platform (Config.cfg l)) /\
     environ !! "FILEPATH_ROOT" = Some (filepathRoot (Config.cfg l)) /\
     environ !! "ASSETS_ROOT" = Some (assetsRoot (Config.cfg l)) /\
     environ !! "S3_BUCKET" = Some (s3Bucket (Config.cfg l)) /\
     environ !! "S3_REGION" = Some (s3Region (Config.cfg l)) /\
     environ !! "S3_CF_DISTRO" = Some (s3CfDistribution (Config.cfg l)) /\
     environ !! "AWS_ACCESS_KEY_ID" = Some (Config.accessKeyId l) /\
     environ !! "AWS_SECRET_ACCESS_KEY" = Some (Config.secretAccessKey l) /\
     environ !! "PORT" = Some (port (Config.cfg l))).
Proof.
  pose proof (load_characterised sys environ) as H.
  change Config.required with (Config.read_before_client ++ ["PORT"]).
  rewrite Forall_app, Forall_singleton, <- all_set_find.
  unfold Config.client_call, Config.database_call.
  destruct (find _ Config.read_before_client) as [key |] eqn:Hfind.
  { split; [split |].
    - intros [l Hl]. congruence.
    - intros [[Hnone _] _]. discriminate Hnone.
    - intros l Hl. congruence. }
  destruct H as (p & j & pl & fr & ar & b & r & d & a & s
                 & Hp & Hj & Hpl & Hfr & Har & Hb & Hr & Hd & Ha & Hs & H).
  destruct (Config.S3Client sys a s b) as [[] | e] eqn:Hclient.
  2: { split; [split |].
       - intros [l Hl]. congruence.
       - intros (_ & (a' & s' & b' & ? & ? & ? & Hc) & _).
         simplify_eq; congruence.
       - intros l Hl. congruence. }
  destruct (Config.is_set environ "PORT") eqn:Hport.
  2: { split; [split |].
       - intros [l Hl]. congruence.
       - intros [[_ Hset] _]. discriminate Hset.
       - intros l Hl. congruence. }
  destruct H as (port_ & Hpo & H).
  destruct (Config.newDatabase sys p) as [[] | e] eqn:Hdb.
  2: { split; [split |].
       - intros [l Hl]. congruence.
       - intros (_ & _ & (p' & ? & Hc)). simplify_eq; congruence.
       - intros l Hl. congruence. }
  split; [split |].
  - intros _. split_and!; eauto 10.
  - eauto.
  - intros l Hl. rewrite H in Hl. injection Hl as <-. cbn.
    split_and!; assumption.
Qed.

Lemma X2_config_loads_iff_set_and_built_witness :
  exists l,
    Config.load Scenarios.constructors Scenarios.environ_full = Returned l.
Proof.
  apply (proj1 (X2_config_loads_iff_set_and_built Scenarios.constructors
                  Scenarios.environ_full)).
  split_and!.
  - vm_compute. repeat constructor.
  - exists "AKIAEXAMPLE", "secret", "tubely-1234". vm_compute. auto.
  - exists "./tubely.db". vm_compute. auto.
Defined.

(** X3: a failure to load the configuration is one of three.  An
    environment variable is absent or empty: the error names the first
    such variable in the order the module reads them.  Or the ten
    variables read before it are set and the constructor of the
    blob-store client threw: the error is the constructor's, and PORT has
    not been looked at.  Or all eleven are set, the client is built, and
    opening the database threw.  A variable read before the client is
    built is reported whatever the constructors do. *)
Theorem X3_config_failures
    (sys : Config.Constructors) (environ : gmap string string) :
  (forall e,
     Config.load sys environ = Thrown e ->
     (exists before key after,
        Config.required = before ++ key :: after /\
        Forall (fun k => Config.is_set environ k = true) before /\
        Config.is_set environ key = false /\
        e = JsError (key +:+ " must be set")) \/
     (Forall (fun k => Config.is_set environ k = true)
        Config.read_before_client /\
      Config.client_call sys environ (Thrown e)) \/
     (Forall (fun k => Config.is_set environ k = true) Config.required /\
      Config.client_call sys environ (Returned tt) /\
      Config.database_call sys environ (Thrown e))) /\
  (forall before key after,
     Config.read_before_client = before ++ key :: after ->
     Forall (fun k => Config.is_set environ k = true) before ->
     Config.is_set environ key = false ->
     Config.load sys environ = Thrown (JsError (key +:+ " must be set"))).
Proof.
  pose proof (load_characterised sys environ) as H.
  split.
  - intros e Hload.
    change Config.required with (Config.read_before_client ++ ["PORT"]).
    destruct (find _ Config.read_before_client) as [key |] eqn:Hfind.
    { left. rewrite H in Hload. injection Hload as <-.
      apply find_first in Hfind.
      destruct Hfind as (before & after & -> & Hb & Hk).
      exists before, key, (after ++ ["PORT"]). split_and!.
      - now rewrite <- app_assoc.
      - eapply Forall_impl; [exact Hb |].
        intros k Hk'. now apply negb_false_iff in Hk'.
      - now apply negb_true_iff in Hk.
      - reflexivity. }
    apply all_set_find in Hfind.
    destruct H as (p & j & pl & fr & ar & b & r & d & a & s
                   & Hp & Hj & Hpl & Hfr & Har & Hb & Hr & Hd & Ha & Hs & H).
    unfold Config.client_call, Config.database_call.
    destruct (Config.S3Client sys a s b) as [[] | e'] eqn:Hclient.
    2: { right. left. rewrite H in Hload. injection Hload as <-.
         split; [exact Hfind | eauto 10]. }
    destruct (Config.is_set environ "PORT") eqn:Hport.
    2: { left. rewrite H in Hload. injection Hload as <-.
         exists Config.read_before_client, "PORT", [].
         split_and!; auto. }
    destruct H as (port_ & Hpo & H).
    destruct (Config.newDatabase sys p) as [[] | e'] eqn:Hdb.
    + congruence.
    + right. right. rewrite H in Hload. injection Hload as <-.
      split_and!; [| eauto 10 | eauto].
      apply Forall_app. split; [exact Hfind |].
      now apply Forall_singleton.
  - intros before key after Hsplit Hb Hk.
    rewrite Hsplit, (find_split _ before after key) in H; [exact H | |].
    + eapply Forall_impl; [exact Hb |].
      intros k Hk'. now apply negb_false_iff.
    + now apply negb_true_iff.
Qed.

Lemma X3_config_failures_witness :
  Config.load Scenarios.constructors_no_db Scenarios.environ_no_region =
    Thrown (JsError ("S3_REGION" +:+ " must be set")).
Proof.
  apply (proj2 (X3_config_failures Scenarios.constructors_no_db
                  Scenarios.environ_no_region)
           ["DB_PATH"; "JWT_SECRET"; "PLATFORM"; "FILEPATH_ROOT";
            "ASSETS_ROOT"; "S3_BUCKET"]
           "S3_REGION"
           ["S3_CF_DISTRO"; "AWS_ACCESS_KEY_ID"; "AWS_SECRET_ACCESS_KEY"]).
  - reflexivity.
  - vm_compute. repeat constructor.
  - vm_compute. reflexivity.
Defined.

(* ===================================================================== *)
(** ** Further properties: the probe and the remux *)
(* ===================================================================== *)

(** X4: [getVideoAspectRatio] never changes the world, and it returns a
    class exactly when ffprobe exits with 0 and its first stream has a
    width and a height that are both present and non-zero; the class is
    then [classify] of the two.  In particular a zero height never
    reaches the division.  This holds with and without the error stream
    piped. *)
Theorem X4_probe_returns_iff_dimensions
    env (stderr : Stdio) (filePath : string) w c :
  (forall o w',
     getVideoAspectRatio env stderr filePath w = (o, w') -> w' = w) /\
  (getVideoAspectRatio env stderr filePath w = (Returned c, w) <->
   probed env (disk w) filePath c).
Proof.
  split; [| split].
  - intros o w' H. run H; injection H as <- <-; reflexivity.
  - intros H. run H; settle. injection H as <-.
    unfold probed. eauto 10.
  - intros Hp. apply probed_tests in Hp.
    destruct Hp as (wd & ht & rest & He & Hj & Ht & ->).
    destruct (getVideoAspectRatio env stderr filePath w) as [o w'] eqn:H.
    run H; injection H as <- <-; congruence.
Qed.

(** X5: when ffprobe exits with a non-zero code, [getVideoAspectRatio]
    throws "ffprobe failed: " followed by what it read from the error
    stream: the text ffprobe wrote in the revision buffering under the
    video identifier, which pipes the stream, and nothing in videos.ts
    and the other unnamed revision, which do not.  When ffprobe exits
    with 0 and its output has no first stream with a non-zero width and a
    non-zero height, every revision throws "Could not read video
    dimensions". *)
Theorem X5_probe_errors (rev : Revision) env (filePath : string) w :
  let out := ffprobe env (disk w) filePath in
  (probe_exit out <> 0%Z ->
   getVideoAspectRatio env (probe_stderr_option rev) filePath w =
     (Thrown (probe_error rev out), w)) /\
  (probe_exit out = 0%Z ->
   forall json,
     probe_json out = Some json ->
     unusable json ->
     getVideoAspectRatio env (probe_stderr_option rev) filePath w =
       (Thrown (JsError "Could not read video dimensions"), w)).
Proof.
  cbv zeta. split.
  - intros Hx. apply Z.eqb_neq in Hx.
    destruct (getVideoAspectRatio env (probe_stderr_option rev) filePath w)
      as [o w'] eqn:H.
    destruct rev; unfold probe_stderr_option, probe_error in *;
      run H; injection H as <- <-; reflexivity.
  - intros Hx json Hj Hu. apply Z.eqb_eq in Hx.
    destruct (getVideoAspectRatio env (probe_stderr_option rev) filePath w)
      as [o w'] eqn:H.
    run H; injection H as <- <-; try reflexivity.
    simplify_eq. cbn [unusable width height] in Hu. congruence.
Qed.

Lemma X5_probe_errors_witness :
  getVideoAspectRatio Fixture.env pipe "/tmp/missing.mp4" Fixture.world0 =
    (Thrown (JsError "ffprobe failed: No such file or directory"),
     Fixture.world0) /\
  getVideoAspectRatio Fixture.env inherit "/tmp/missing.mp4" Fixture.world0 =
    (Thrown (JsError "ffprobe failed: "), Fixture.world0) /\
  getVideoAspectRatio Scenarios.env_flat inherit "/tmp/vid-1.mp4"
    Fixture.world0 =
    (Thrown (JsError "Could not read video dimensions"), Fixture.world0).
Proof.
  split_and!.
  - apply (proj1 (X5_probe_errors part_000 Fixture.env "/tmp/missing.mp4"
                    Fixture.world0)).
    vm_compute. discriminate.
  - apply (proj1 (X5_probe_errors videos_ts Fixture.env "/tmp/missing.mp4"
                    Fixture.world0)).
    vm_compute. discriminate.
  - apply (proj2 (X5_probe_errors videos_ts Scenarios.env_flat
                    "/tmp/vid-1.mp4" Fixture.world0) eq_refl
             (Some [{| width := Some 1280%Z; height := Some 0%Z |}])
             eq_refl).
    reflexivity.
Defined.

(** X6: [processVideoForFastStart] never touches its input file nor any
    file other than the one at the derived output path, and leaves the
    record store, the blob store and the thumbnail map alone; when it
    returns, it returns the derived output path and ffmpeg has exited
    with 0. *)
Theorem X6_remux_leaves_input (rev : Revision) env (filePath : string) w o w' :
  processVideoForFastStart rev env filePath w = (o, w') ->
  disk w' !! filePath = disk w !! filePath /\
  (forall p, p <> fast_start_path rev filePath ->
             disk w' !! p = disk w !! p) /\
  db w' = db w /\ bucket w' = bucket w /\
  videoThumbnails w' = videoThumbnails w /\
  (forall out, o = Returned out ->
     out = fast_start_path rev filePath /\
     remux_exit (ffmpeg env (disk w) filePath out) = 0%Z).
Proof.
  intros H. unfold processVideoForFastStart in H.
  destruct rev; run H; injection H as <- <-; settle; unfold_revision;
    cbn [disk db bucket videoThumbnails].
  all: split_and!; try reflexivity; lookups; try reflexivity.
  all: try (intros p Hp; apply lookup_insert_ne; congruence).
  all: try (intros out [= <-]; split; [reflexivity | assumption]).
  all: intros out Ho; discriminate Ho.
Qed.

Lemma X6_remux_leaves_input_witness :
  disk (Part000.processVideoForFastStart Fixture.env "/tmp/vid-1.mp4"
          Scenarios.world_buffered).2 !! "/tmp/vid-1.mp4" =
    disk Scenarios.world_buffered !! "/tmp/vid-1.mp4".
Proof.
  refine (proj1 (X6_remux_leaves_input part_000 Fixture.env "/tmp/vid-1.mp4"
                   Scenarios.world_buffered _ _ _)).
  apply surjective_pairing.
Defined.

Lemma X4_probe_returns_iff_dimensions_witness :
  getVideoAspectRatio Fixture.env inherit "/tmp/vid-1.mp4"
    Scenarios.world_buffered =
    (Returned landscape, Scenarios.world_buffered).
Proof.
  apply (proj2 (X4_probe_returns_iff_dimensions Fixture.env inherit
                  "/tmp/vid-1.mp4" Scenarios.world_buffered landscape)).
  exists 1280%Z, 720%Z, []. vm_compute. split_and!; congruence.
Defined.

(* ===================================================================== *)
(** ** Further properties: the checks of the upload handlers *)
(* ===================================================================== *)

(** Open the checks made before the file field into the tests of the
    handlers. *)
Ltac open_admitted Ha :=
  let Hrow := fresh "Hrow" in
  destruct Ha as (? & ? & ? & ? & Hne & ? & ? & Hrow);
  apply String.eqb_neq in Hne;
  try (destruct (Hrow eq_refl) as (? & ? & Hu); apply String.eqb_eq in Hu);
  clear Hrow.

(** X7: a run of an upload handler (of videos, in each revision, or of
    thumbnails) that ends in a bad-request, authentication, not-found
    or forbidden error has changed nothing: the disk, the blob store,
    the record store and the thumbnail map are as they were. *)
Theorem X7_validation_failure_changes_nothing env cfg req w e w' :
  validation_failure e = true ->
  (forall rev, handlerUploadVideo rev env cfg req w = (Thrown e, w') ->
               w' = w) /\
  (Thumbnails.handlerUploadThumbnail env cfg req w = (Thrown e, w') ->
   w' = w).
Proof.
  intros He. split.
  - intros rev H. destruct rev; run H.
    all: injection H as <- <-; try reflexivity; discriminate He.
  - intros H. run H.
    all: injection H as <- <-; try reflexivity; discriminate He.
Qed.

Lemma X7_validation_failure_changes_nothing_witness :
  (handlerUploadVideo part_001 Fixture.env Fixture.cfg Fixture.bob_upload
     Fixture.world0).2 = Fixture.world0.
Proof.
  refine (proj1 (X7_validation_failure_changes_nothing Fixture.env Fixture.cfg
                   Fixture.bob_upload Fixture.world0
                   (UserForbiddenError "Not authorized to update this video")
                   _ eq_refl) part_001 _).
  apply pair_eta. vm_compute. reflexivity.
Defined.

(** X8: a request without a video identifier, or with an empty one, is
    answered by every handler with the bad-request error Invalid video
    ID, whatever else it carries, and changes nothing. *)
Theorem X8_missing_identifier env cfg req w :
  param_videoId req = None \/ param_videoId req = Some "" ->
  (forall rev,
      handlerUploadVideo rev env cfg req w =
        (Thrown (BadRequestError "Invalid video ID"), w)) /\
  Thumbnails.handlerUploadThumbnail env cfg req w =
    (Thrown (BadRequestError "Invalid video ID"), w) /\
  Thumbnails.handlerGetThumbnail cfg req w =
    (Thrown (BadRequestError "Invalid video ID"), w).
Proof.
  intros Hp.
  assert (require_videoId (param_videoId req) w =
            (Thrown (BadRequestError "Invalid video ID"), w)) as Hr.
  { destruct Hp as [-> | ->]; reflexivity. }
  split_and!.
  - intros rev. destruct rev; cbn [handlerUploadVideo];
      unfold VideosTs.handlerUploadVideo, Part000.handlerUploadVideo,
        Part001.handlerUploadVideo, bind; rewrite Hr; reflexivity.
  - unfold Thumbnails.handlerUploadThumbnail, bind. rewrite Hr. reflexivity.
  - unfold Thumbnails.handlerGetThumbnail, bind. rewrite Hr. reflexivity.
Qed.

Lemma X8_missing_identifier_witness :
  Thumbnails.handlerGetThumbnail Fixture.cfg Scenarios.anonymous
    Fixture.world0 =
    (Thrown (BadRequestError "Invalid video ID"), Fixture.world0).
Proof.
  apply (X8_missing_identifier Fixture.env Fixture.cfg Scenarios.anonymous
           Fixture.world0).
  left. reflexivity.
Defined.

(** X9: with a video identifier, a request whose credential is missing
    or does not validate against the configured secret is answered by
    the upload handlers with an authentication failure and changes
    nothing. *)
Theorem X9_bad_credential env cfg req w (videoId : string) :
  param_videoId req = Some videoId -> videoId <> "" ->
  getBearerToken env (authorization req) = None \/
  (exists token,
      getBearerToken env (authorization req) = Some token /\
      validateJWT env token (jwtSecret cfg) = None) ->
  (forall rev,
      exists msg,
        handlerUploadVideo rev env cfg req w = (Thrown (AuthFailure msg), w)) /\
  (exists msg,
      Thumbnails.handlerUploadThumbnail env cfg req w =
        (Thrown (AuthFailure msg), w)).
Proof.
  intros Hp Hne Hcred. apply String.eqb_neq in Hne.
  assert (exists msg,
             authenticate env cfg req w = (Thrown (AuthFailure msg), w)) as Ha.
  { unfold authenticate.
    destruct Hcred as [-> | (token & -> & ->)]; eexists; reflexivity. }
  destruct Ha as [msg Ha].
  assert (require_videoId (param_videoId req) w = (Returned videoId, w)) as Hr.
  { rewrite Hp. unfold require_videoId. rewrite Hne. reflexivity. }
  split.
  - intros rev. exists msg.
    destruct rev; cbn [handlerUploadVideo];
      unfold VideosTs.handlerUploadVideo, Part000.handlerUploadVideo,
        Part001.handlerUploadVideo, bind; rewrite Hr, Ha; reflexivity.
  - exists msg. unfold Thumbnails.handlerUploadThumbnail, bind.
    rewrite Hr, Ha. reflexivity.
Qed.

Lemma X9_bad_credential_witness :
  exists msg,
    handlerUploadVideo part_000 Fixture.env Fixture.cfg Scenarios.forged_upload
      Fixture.world0 = (Thrown (AuthFailure msg), Fixture.world0).
Proof.
  refine (proj1 (X9_bad_credential Fixture.env Fixture.cfg
                   Scenarios.forged_upload Fixture.world0 "vid-1"
                   eq_refl _ _) part_000).
  - discriminate.
  - right. exists "token-of-mallory". split; reflexivity.
Defined.

(** X10: once the checks placed before the file field are passed, a
    file field within the size ceiling whose media type is not
    video/mp4 is refused with the bad-request error of the media-type
    check, and nothing has changed. *)
Theorem X10_wrong_media_type (rev : Revision) env cfg req w (f : FileField) :
  admitted rev env cfg req w ->
  form req !! "video" = Some (FormFile f) ->
  (file_size f <= 2 ^ 30)%Z ->
  file_type f <> "video/mp4" ->
  handlerUploadVideo rev env cfg req w = (Thrown (wrong_type rev), w).
Proof.
  intros Ha Hform Hsize Htype.
  apply String.eqb_neq in Htype.
  assert (forall r, negb (max_upload_size r <? file_size f)%Z = true) as Ht.
  { intros r. rewrite max_upload_size_is_1GiB.
    apply negb_true_iff, Z.ltb_ge. exact Hsize. }
  pose proof (Ht videos_ts) as T1. pose proof (Ht part_000) as T2.
  pose proof (Ht part_001) as T3. cbn [max_upload_size] in T1, T2, T3.
  clear Ht.
  destruct (handlerUploadVideo rev env cfg req w) as [o w'] eqn:Hrun.
  destruct rev; open_admitted Ha; run Hrun.
  all: injection Hrun as <- <-; reflexivity.
Qed.

Lemma alice_admitted (rev : Revision) (f : FileField) :
  admitted rev Fixture.env Fixture.cfg
    (Fixture.upload_by "token-of-alice" f) Fixture.world0.
Proof.
  exists "vid-1", "token-of-alice", "alice".
  split_and!; try reflexivity; try discriminate.
  intros _. exists Fixture.video1. split; reflexivity.
Qed.

Lemma X10_wrong_media_type_witness :
  handlerUploadVideo videos_ts Fixture.env Fixture.cfg
    (Fixture.upload_by "token-of-alice" Fixture.png) Fixture.world0 =
    (Thrown (BadRequestError "Video should be video/mp4"), Fixture.world0).
Proof.
  apply (X10_wrong_media_type videos_ts Fixture.env Fixture.cfg
           (Fixture.upload_by "token-of-alice" Fixture.png) Fixture.world0
           Fixture.png).
  - apply alice_admitted.
  - reflexivity.
  - vm_compute. discriminate.
  - discriminate.
Defined.

(** X11: once the checks placed before the file field are passed, a
    request whose form has no video field, or has a text field under
    that name, is refused with the bad-request error Video file
    missing, and nothing has changed. *)
Theorem X11_missing_file (rev : Revision) env cfg req w :
  admitted rev env cfg req w ->
  form req !! "video" = None \/
  (exists s, form req !! "video" = Some (FormText s)) ->
  handlerUploadVideo rev env cfg req w =
    (Thrown (BadRequestError "Video file missing"), w).
Proof.
  intros Ha Hform.
  destruct (handlerUploadVideo rev env cfg req w) as [o w'] eqn:Hrun.
  destruct rev; open_admitted Ha; destruct Hform as [Hf | [s Hf]]; run Hrun.
  all: injection Hrun as <- <-; reflexivity.
Qed.

Lemma X11_missing_file_witness :
  handlerUploadVideo part_000 Fixture.env Fixture.cfg Scenarios.empty_upload
    Fixture.world0 =
    (Thrown (BadRequestError "Video file missing"), Fixture.world0).
Proof.
  apply (X11_missing_file part_000 Fixture.env Fixture.cfg
           Scenarios.empty_upload Fixture.world0).
  - exists "vid-1", "token-of-alice", "alice".
    split_and!; try reflexivity; try discriminate.
    intros _. exists Fixture.video1. split; reflexivity.
  - left. reflexivity.
Defined.

(** X12: an authenticated request for a video identifier that the
    record store does not hold is answered with the not-found error
    and changes nothing (in the two revisions that look at the file
    field first, provided the file field is in order). *)
Theorem X12_unknown_video (rev : Revision) env cfg req w
    (videoId token user : string) :
  param_videoId req = Some videoId -> videoId <> "" ->
  getBearerToken env (authorization req) = Some token ->
  validateJWT env token (jwtSecret cfg) = Some user ->
  db w !! videoId = None ->
  rev = part_000 \/ file_in_order req ->
  handlerUploadVideo rev env cfg req w =
    (Thrown (NotFoundError "Couldn't find video"), w).
Proof.
  intros Hp Hne Htok Hjwt Hrow Hfile.
  apply String.eqb_neq in Hne.
  destruct (handlerUploadVideo rev env cfg req w) as [o w'] eqn:Hrun.
  destruct rev;
    (destruct Hfile as [Hrev | (f & Hform & Hsize & Htype)];
     [try discriminate Hrev |]).
  all: try (apply String.eqb_eq in Htype;
            apply Z.ltb_ge, negb_true_iff in Hsize;
            pose proof (max_upload_size_is_1GiB videos_ts) as E1;
            pose proof (max_upload_size_is_1GiB part_001) as E2;
            cbn [max_upload_size] in E1, E2;
            rewrite <- E1 in Hsize;
            pose proof Hsize as Hsize'; rewrite E1, <- E2 in Hsize').
  all: run Hrun.
  all: injection Hrun as <- <-; reflexivity.
Qed.

Lemma X12_unknown_video_witness :
  handlerUploadVideo part_000 Fixture.env Fixture.cfg Fixture.alice_upload
    Scenarios.world_empty =
    (Thrown (NotFoundError "Couldn't find video"), Scenarios.world_empty).
Proof.
  apply (X12_unknown_video part_000 Fixture.env Fixture.cfg
           Fixture.alice_upload Scenarios.world_empty
           "vid-1" "token-of-alice" "alice");
    try reflexivity; try discriminate.
  left. reflexivity.
Defined.

(* ===================================================================== *)
(** ** Further properties: what a run of the upload leaves behind *)
(* ===================================================================== *)

(** X13: when the probe of the buffered upload exits with a non-zero
    code, the upload handler throws the probe error of its revision:
    "ffprobe failed: " followed by the text ffprobe wrote in the revision
    buffering under the video identifier, and "ffprobe failed: " alone in
    videos.ts and the other unnamed revision, which do not pipe the error
    stream.  The buffered file is the only change to the disk, and the
    blob store and the record store are untouched. *)
Theorem X13_probe_failure_during_upload
    (rev : Revision) env cfg req w videoId row f :
  validated env cfg req w videoId row f ->
  let filePath := buffer_path rev env cfg videoId in
  let buffered := <[filePath := file_data f]> (disk w) in
  refused env (DiskWrite filePath) = false ->
  probe_exit (ffprobe env buffered filePath) <> 0%Z ->
  exists w',
    handlerUploadVideo rev env cfg req w =
      (Thrown (probe_error rev (ffprobe env buffered filePath)), w') /\
    disk w' = buffered /\ bucket w' = bucket w /\ db w' = db w.
Proof.
  intros Hv filePath buffered Hw Hx. subst filePath buffered.
  apply Z.eqb_neq in Hx.
  destruct (handlerUploadVideo rev env cfg req w) as [o w'] eqn:Hrun.
  destruct rev; open_validated Hv; unfold_revision; unfold probe_error;
    run Hrun.
  all: injection Hrun as <- <-; simplify_eq.
  all: eexists; split_and!; reflexivity.
Qed.

Lemma X13_probe_failure_during_upload_witness :
  (exists w',
     handlerUploadVideo part_000 Scenarios.env_no_probe Fixture.cfg
       Fixture.alice_upload Fixture.world0 =
       (Thrown (JsError "ffprobe failed: Invalid data found"), w') /\
     disk w' = <["/tmp/vid-1.mp4" := file_data (Fixture.mp4 1000)]>
                 (disk Fixture.world0) /\
     bucket w' = bucket Fixture.world0 /\ db w' = db Fixture.world0) /\
  (exists w',
     handlerUploadVideo videos_ts Scenarios.env_no_probe Fixture.cfg
       Fixture.alice_upload Fixture.world0 =
       (Thrown (JsError "ffprobe failed: "), w') /\
     disk w' = <["assets/Zm9vYmFy.mp4" := file_data (Fixture.mp4 1000)]>
                 (disk Fixture.world0) /\
     bucket w' = bucket Fixture.world0 /\ db w' = db Fixture.world0).
Proof.
  split.
  - apply (X13_probe_failure_during_upload part_000 Scenarios.env_no_probe
             Fixture.cfg Fixture.alice_upload Fixture.world0 "vid-1"
             Fixture.video1 (Fixture.mp4 1000)).
    + apply alice_upload_validated; reflexivity.
    + reflexivity.
    + vm_compute. discriminate.
  - apply (X13_probe_failure_during_upload videos_ts Scenarios.env_no_probe
             Fixture.cfg Fixture.alice_upload Fixture.world0 "vid-1"
             Fixture.video1 (Fixture.mp4 1000)).
    + apply alice_upload_validated; reflexivity.
    + reflexivity.
    + vm_compute. discriminate.
Defined.

(** X14: when the blob store refuses the write, the upload handler
    throws the error of that write; the blob store and the record store
    are untouched, and the disk holds the buffered upload and whatever
    the remux wrote: neither temporary file is removed. *)
Theorem X14_storage_failure (rev : Revision) env cfg req w videoId row f c :
  validated env cfg req w videoId row f ->
  let filePath := buffer_path rev env cfg videoId in
  let buffered := <[filePath := file_data f]> (disk w) in
  let key := storage_key rev env cfg c videoId in
  refused env (DiskWrite filePath) = false ->
  probed env buffered filePath c ->
  remux_exit (ffmpeg env buffered filePath (fast_start_path rev filePath))
    = 0%Z ->
  refused env (S3Put key) = true ->
  exists w',
    handlerUploadVideo rev env cfg req w = (Thrown (IoError (S3Put key)), w') /\
    disk w' = disk_after_remux rev env cfg videoId (file_data f) (disk w) /\
    bucket w' = bucket w /\ db w' = db w.
Proof.
  intros Hv filePath buffered key Hw Hp Hx Hs. subst filePath buffered key.
  apply probed_tests in Hp. destruct Hp as (wd & ht & rest & ? & ? & ? & ->).
  apply Z.eqb_eq in Hx.
  destruct (handlerUploadVideo rev env cfg req w) as [o w'] eqn:Hrun.
  destruct rev; open_validated Hv; unfold disk_after_remux; unfold_revision;
    run Hrun.
  all: injection Hrun as <- <-; simplify_eq.
  all: eexists; split_and!; try reflexivity.
  all: cbn [disk];
    match goal with
    | Hr : remux_written _ = _ |- _ => rewrite Hr
    end; reflexivity.
Qed.

Lemma X14_storage_failure_witness :
  exists w',
    handlerUploadVideo part_000 Scenarios.env_no_store Fixture.cfg
      Fixture.alice_upload Fixture.world0 =
      (Thrown (IoError (S3Put "landscape/vid-1.mp4")), w') /\
    disk w' = disk_after_remux part_000 Scenarios.env_no_store Fixture.cfg
                "vid-1" (file_data (Fixture.mp4 1000)) (disk Fixture.world0) /\
    bucket w' = bucket Fixture.world0 /\ db w' = db Fixture.world0.
Proof.
  apply (X14_storage_failure part_000 Scenarios.env_no_store Fixture.cfg
           Fixture.alice_upload Fixture.world0 "vid-1" Fixture.video1
           (Fixture.mp4 1000) landscape).
  - apply alice_upload_validated; reflexivity.
  - reflexivity.
  - exists 1280%Z, 720%Z, []. vm_compute. split_and!; congruence.
  - vm_compute. reflexivity.
  - reflexivity.
Defined.

(** X15: a successful upload changes one row of the record store, the
    one of the video, and in it the playback URL only; it changes one
    key of the blob store, never the thumbnail map, and no file other
    than its two temporary files and the path its closing deletion
    names. *)
Theorem X15_success_frame (rev : Revision) env cfg req w r w' :
  handlerUploadVideo rev env cfg req w = (Returned r, w') ->
  exists videoId (row row' : VideoRow) c,
    let filePath := buffer_path rev env cfg videoId in
    param_videoId req = Some videoId /\
    db w !! videoId = Some row /\
    db w' !! videoId = Some row' /\
    row_userID row' = row_userID row /\
    row_thumbnailURL row' = row_thumbnailURL row /\
    (forall k, k <> videoId -> db w' !! k = db w !! k) /\
    (forall k, k <> storage_key rev env cfg c videoId ->
               bucket w' !! k = bucket w !! k) /\
    videoThumbnails w' = videoThumbnails w /\
    (forall p, p <> filePath -> p <> fast_start_path rev filePath ->
               p <> filePath +:+ ".processed.mp4" ->
               disk w' !! p = disk w !! p).
Proof.
  intros Hrun. apply upload_success in Hrun.
  destruct Hrun as (v & row & f & c & content & Hv & _ & _ & _ & Hdb & Hd
                    & Hb & Ht).
  destruct Hv as (Hp & _ & _ & Hrow & _).
  cbv zeta in Hdb, Hd, Hb.
  eexists v, row, _, c. cbv zeta.
  split_and!; try eassumption.
  - rewrite Hdb. apply lookup_insert_eq.
  - reflexivity.
  - reflexivity.
  - intros k Hk. rewrite Hdb. now apply lookup_insert_ne.
  - intros k Hk. rewrite Hb. now apply lookup_insert_ne.
  - intros p H1 H2 H3. rewrite Hd. unfold disk_after_remux.
    destruct (remux_written _);
      destruct rev; cbn [cleanup]; unfold_revision;
      rewrite ?lookup_delete_ne, ?lookup_insert_ne by congruence;
      reflexivity.
Qed.

Lemma X15_success_frame_witness :
  videoThumbnails Fixture.after_first = videoThumbnails Fixture.world0.
Proof.
  destruct (X15_success_frame part_000 Fixture.env Fixture.cfg
              Fixture.alice_upload Fixture.world0
              (JsonResponse 200
                 (set_videoURL (video_of "vid-1" Fixture.video1)
                    "https://d111abcdef8.cloudfront.net/landscape/vid-1.mp4"))
              Fixture.after_first)
    as (v & row & row' & c & _ & _ & _ & _ & _ & _ & _ & Ht & _).
  - apply pair_eta. vm_compute. reflexivity.
  - exact Ht.
Defined.

(** X16: in the revision using the distribution address, a successful
    upload removes both temporary files; when neither path held a file
    before the run, the disk is afterwards exactly as it was. *)
Theorem X16_both_temporary_files_removed env cfg req w r w' :
  handlerUploadVideo part_001 env cfg req w = (Returned r, w') ->
  let filePath := Path.join [assetsRoot cfg; randomName env +:+ ".mp4"] in
  disk w' !! filePath = None /\
  disk w' !! (filePath +:+ ".processed") = None /\
  (disk w !! filePath = None ->
   disk w !! (filePath +:+ ".processed") = None ->
   disk w' = disk w).
Proof.
  intros Hrun filePath. apply upload_success in Hrun.
  destruct Hrun as (v & row & f & c & content & _ & _ & _ & _ & _ & Hd & _).
  cbv zeta in Hd. unfold disk_after_remux in Hd.
  unfold_revision. fold filePath in Hd. rewrite Hd. split_and!.
  - apply lookup_delete_eq.
  - rewrite lookup_delete_ne by path_ne. apply lookup_delete_eq.
  - intros H1 H2. apply map_eq. intros k.
    destruct (decide (k = filePath)) as [-> | Hk1].
    { rewrite lookup_delete_eq. now symmetry. }
    rewrite lookup_delete_ne by congruence.
    destruct (decide (k = filePath +:+ ".processed")) as [-> | Hk2].
    { rewrite lookup_delete_eq. now symmetry. }
    rewrite lookup_delete_ne by congruence.
    destruct (remux_written _);
      rewrite ?lookup_insert_ne by congruence; reflexivity.
Qed.

Lemma X16_both_temporary_files_removed_witness :
  disk (handlerUploadVideo part_001 Fixture.env Fixture.cfg
          Fixture.alice_upload Fixture.world0).2 = disk Fixture.world0.
Proof.
  refine (proj2 (proj2 (X16_both_temporary_files_removed Fixture.env
                          Fixture.cfg Fixture.alice_upload Fixture.world0
                          _ _ _)) eq_refl eq_refl).
  apply pair_eta. vm_compute. reflexivity.
Defined.

(* ===================================================================== *)
(** ** Further properties: thumbnails *)
(* ===================================================================== *)

Lemma thumbnail_type_accepted (t : string) :
  negb (negb (t =? "image/jpeg")%string && negb (t =? "image/png")%string)
    = true ->
  t = "image/jpeg" \/ t = "image/png".
Proof.
  destruct (String.eqb_spec t "image/jpeg"); [auto |].
  destruct (String.eqb_spec t "image/png"); [auto |].
  discriminate.
Qed.

(** Everything a successful thumbnail upload has done. *)
Lemma upload_thumbnail_effects env cfg req w r w' :
  Thumbnails.handlerUploadThumbnail env cfg req w = (Returned r, w') ->
  exists videoId (row : VideoRow) (f : FileField) ext,
    let name := randomName env +:+ "." +:+ ext in
    let url := "http://localhost:" +:+ port cfg +:+ "/assets/" +:+ name in
    let video :=
      {| id := videoId; userID := row_userID row;
         videoURL := row_videoURL row; thumbnailURL := Some url |} in
    param_videoId req = Some videoId /\
    db w !! videoId = Some row /\
    form req !! "thumbnail" = Some (FormFile f) /\
    (file_size f <= 10 * 1024 * 1024)%Z /\
    (file_type f = "image/jpeg" /\ ext = "jpeg" \/
     file_type f = "image/png" /\ ext = "png") /\
    r = JsonResponse 200 video /\
    disk w' = <[Path.join [assetsRoot cfg; name] := file_data f]> (disk w) /\
    videoThumbnails w' =
      <[randomName env :=
          {| data := file_data f; mediaType := file_type f |}]>
        (videoThumbnails w) /\
    db w' = <[videoId := row_of video]> (db w) /\
    bucket w' = bucket w.
Proof.
  intros H. run H.
  all: injection H as <- <-; simplify_eq.
  all: match goal with
       | Ht : negb (negb _ && negb _) = true |- _ =>
           apply thumbnail_type_accepted in Ht
       end.
  all: match goal with
       | Hs : form _ !! "thumbnail" = Some (FormFile ?f),
         Hp : param_videoId _ = Some ?v,
         Hr : db _ !! ?v = Some ?row,
         Ht : file_type ?f = _ \/ _ |- _ =>
           destruct Ht as [Ht | Ht];
           [exists v, row, f, "jpeg" | exists v, row, f, "png"]
       end.
  all: cbv zeta; cbn [db disk bucket videoThumbnails].
  all: match goal with
       | Hz : negb (Thumbnails.MAX_UPLOAD_SIZE <? _)%Z = true |- _ =>
           apply negb_true_iff, Z.ltb_ge in Hz;
           unfold Thumbnails.MAX_UPLOAD_SIZE in Hz
       end.
  all: split_and!; try assumption; auto.
  all: try (match goal with
            | Ht : file_type _ = _ |- _ => rewrite Ht; reflexivity
            end).
  all: try congruence.
Qed.

(** X17: a successful thumbnail upload has written the file under the
    assets root, as <random name>.<subtype>; filed the bytes and the
    media type in the thumbnail map under the random name; stored
    http://localhost:<port>/assets/<random name>.<subtype> as the
    thumbnail URL of the record, whose owner and playback URL it keeps;
    and answers 200 with the updated record.  The file field was a JPEG
    or a PNG of at most 10 MiB. *)
Theorem X17_thumbnail_upload_effects env cfg req w r w' :
  Thumbnails.handlerUploadThumbnail env cfg req w = (Returned r, w') ->
  exists videoId (row : VideoRow) (f : FileField) ext,
    let name := randomName env +:+ "." +:+ ext in
    let url := "http://localhost:" +:+ port cfg +:+ "/assets/" +:+ name in
    param_videoId req = Some videoId /\
    db w !! videoId = Some row /\
    form req !! "thumbnail" = Some (FormFile f) /\
    (file_size f <= 10485760)%Z /\
    (file_type f = "image/jpeg" /\ ext = "jpeg" \/
     file_type f = "image/png" /\ ext = "png") /\
    r = JsonResponse 200
          {| id := videoId; userID := row_userID row;
             videoURL := row_videoURL row; thumbnailURL := Some url |} /\
    disk w' = <[Path.join [assetsRoot cfg; name] := file_data f]> (disk w) /\
    videoThumbnails w' =
      <[randomName env :=
          {| data := file_data f; mediaType := file_type f |}]>
        (videoThumbnails w) /\
    db w' =
      <[videoId := {| row_userID := row_userID row;
                      row_videoURL := row_videoURL row;
                      row_thumbnailURL := Some url |}]> (db w) /\
    bucket w' = bucket w.
Proof.
  intros H. apply upload_thumbnail_effects in H.
  destruct H as (v & row & f & ext & H). exists v, row, f, ext. exact H.
Qed.

Lemma X17_thumbnail_upload_effects_witness :
  exists videoId (row : VideoRow) (f : FileField) ext,
    let name := randomName Fixture.env +:+ "." +:+ ext in
    let url :=
      "http://localhost:" +:+ port Fixture.cfg +:+ "/assets/" +:+ name in
    param_videoId Fixture.thumbnail_upload = Some videoId /\
    db Fixture.world0 !! videoId = Some row /\
    form Fixture.thumbnail_upload !! "thumbnail" = Some (FormFile f) /\
    (file_size f <= 10485760)%Z /\
    (file_type f = "image/jpeg" /\ ext = "jpeg" \/
     file_type f = "image/png" /\ ext = "png") /\
    JsonResponse 200
      {| id := "vid-1"; userID := "alice"; videoURL := None;
         thumbnailURL := Some "http://localhost:8091/assets/Zm9vYmFy.png" |} =
    JsonResponse 200
          {| id := videoId; userID := row_userID row;
             videoURL := row_videoURL row; thumbnailURL := Some url |} /\
    disk Fixture.after_thumbnail =
      <[Path.join [assetsRoot Fixture.cfg; name] := file_data f]>
        (disk Fixture.world0) /\
    videoThumbnails Fixture.after_thumbnail =
      <[randomName Fixture.env :=
          {| data := file_data f; mediaType := file_type f |}]>
        (videoThumbnails Fixture.world0) /\
    db Fixture.after_thumbnail =
      <[videoId := {| row_userID := row_userID row;
                      row_videoURL := row_videoURL row;
                      row_thumbnailURL := Some url |}]> (db Fixture.world0) /\
    bucket Fixture.after_thumbnail = bucket Fixture.world0.
Proof.
  apply (X17_thumbnail_upload_effects Fixture.env Fixture.cfg
           Fixture.thumbnail_upload Fixture.world0).
  apply pair_eta. vm_compute. reflexivity.
Defined.

(** X18: the name, the disk path and the URL that the thumbnail upload
    builds are those of the asset helpers: after a successful upload the
    bytes are on disk at getAssetDiskPath of getAssetPath of the media
    type, and the thumbnail URL of the record is getAssetURL of it. *)
Theorem X18_thumbnail_upload_agrees_with_asset_helpers env cfg req w r w' :
  Thumbnails.handlerUploadThumbnail env cfg req w = (Returned r, w') ->
  exists videoId (row' : VideoRow) (f : FileField),
    let assetPath := Assets.getAssetPath env (file_type f) in
    param_videoId req = Some videoId /\
    form req !! "thumbnail" = Some (FormFile f) /\
    disk w' !! Assets.getAssetDiskPath cfg assetPath = Some (file_data f) /\
    db w' !! videoId = Some row' /\
    row_thumbnailURL row' = Some (Assets.getAssetURL cfg assetPath).
Proof.
  intros H. apply upload_thumbnail_effects in H.
  destruct H as (v & row & f & ext & Hp & _ & Hf & _ & Ht & _ & Hd & _
                 & Hdb & _).
  cbv zeta in Hd, Hdb.
  eexists v, _, f. cbv zeta.
  split; [exact Hp |]. split; [exact Hf |].
  rewrite Hd, Hdb, lookup_insert_eq.
  unfold Assets.getAssetDiskPath, Assets.getAssetURL, Assets.getAssetPath.
  destruct Ht as [[-> ->] | [-> ->]].
  - change (Assets.mediaTypeToExt "image/jpeg") with ("." +:+ "jpeg").
    rewrite lookup_insert_eq. split_and!; reflexivity.
  - change (Assets.mediaTypeToExt "image/png") with ("." +:+ "png").
    rewrite lookup_insert_eq. split_and!; reflexivity.
Qed.

Lemma X18_thumbnail_upload_agrees_with_asset_helpers_witness :
  exists videoId (row' : VideoRow) (f : FileField),
    let assetPath := Assets.getAssetPath Fixture.env (file_type f) in
    param_videoId Fixture.thumbnail_upload = Some videoId /\
    form Fixture.thumbnail_upload !! "thumbnail" = Some (FormFile f) /\
    disk Fixture.after_thumbnail
      !! Assets.getAssetDiskPath Fixture.cfg assetPath = Some (file_data f) /\
    db Fixture.after_thumbnail !! videoId = Some row' /\
    row_thumbnailURL row' = Some (Assets.getAssetURL Fixture.cfg assetPath).
Proof.
  apply (X18_thumbnail_upload_agrees_with_asset_helpers Fixture.env
           Fixture.cfg Fixture.thumbnail_upload Fixture.world0
           (JsonResponse 200
              {| id := "vid-1"; userID := "alice"; videoURL := None;
                 thumbnailURL :=
                   Some "http://localhost:8091/assets/Zm9vYmFy.png" |})).
  apply pair_eta. vm_compute. reflexivity.
Defined.

(** X19: the thumbnail upload accepts a file field of at most 10 MiB
    (10485760 bytes) whose media type is image/jpeg or image/png.  For
    an authenticated request, a larger file field is refused with the
    bad-request error of the size check, and a file field within the
    ceiling of any other media type with the bad-request error of the
    media-type check; in both cases nothing has changed. *)
Theorem X19_thumbnail_gate env cfg req w (videoId token user : string)
    (f : FileField) :
  param_videoId req = Some videoId -> videoId <> "" ->
  getBearerToken env (authorization req) = Some token ->
  validateJWT env token (jwtSecret cfg) = Some user ->
  form req !! "thumbnail" = Some (FormFile f) ->
  ((10485760 < file_size f)%Z ->
   Thumbnails.handlerUploadThumbnail env cfg req w =
     (Thrown (BadRequestError
                "Thumbnail file exceeds the maximum allowed size of 10MB"),
      w)) /\
  ((file_size f <= 10485760)%Z ->
   file_type f <> "image/jpeg" -> file_type f <> "image/png" ->
   Thumbnails.handlerUploadThumbnail env cfg req w =
     (Thrown (BadRequestError
                "Thumbnail should be image image/jpeg or image/png"),
      w)).
Proof.
  intros Hp Hne Htok Hjwt Hform. apply String.eqb_neq in Hne.
  split.
  - intros Hsize.
    assert (negb (Thumbnails.MAX_UPLOAD_SIZE <? file_size f)%Z = false) as Hz.
    { apply negb_false_iff, Z.ltb_lt. exact Hsize. }
    destruct (Thumbnails.handlerUploadThumbnail env cfg req w) as [o w']
      eqn:Hrun.
    run Hrun. all: injection Hrun as <- <-; reflexivity.
  - intros Hsize Hj Hg.
    assert (negb (Thumbnails.MAX_UPLOAD_SIZE <? file_size f)%Z = true) as Hz.
    { apply negb_true_iff, Z.ltb_ge. exact Hsize. }
    assert (negb (negb (file_type f =? "image/jpeg")%string
                  && negb (file_type f =? "image/png")%string) = false) as Ht.
    { apply String.eqb_neq in Hj, Hg. rewrite Hj, Hg. reflexivity. }
    destruct (Thumbnails.handlerUploadThumbnail env cfg req w) as [o w']
      eqn:Hrun.
    run Hrun. all: injection Hrun as <- <-; reflexivity.
Qed.

Lemma X19_thumbnail_gate_witness :
  Thumbnails.handlerUploadThumbnail Fixture.env Fixture.cfg
    (Scenarios.thumbnail_by "token-of-alice" Scenarios.gif) Fixture.world0 =
    (Thrown (BadRequestError
               "Thumbnail should be image image/jpeg or image/png"),
     Fixture.world0).
Proof.
  refine (proj2 (X19_thumbnail_gate Fixture.env Fixture.cfg
                   (Scenarios.thumbnail_by "token-of-alice" Scenarios.gif)
                   Fixture.world0 "vid-1" "token-of-alice" "alice"
                   Scenarios.gif eq_refl _ eq_refl eq_refl eq_refl) _ _ _).
  - discriminate.
  - vm_compute. discriminate.
  - discriminate.
  - discriminate.
Defined.

(** X20: a thumbnail upload that throws never changes the record store
    nor the blob store.  Unless the error is a refused record update,
    it has changed nothing at all; when the record update is refused,
    the file has already been written and the thumbnail map already
    holds the entry under the random name. *)
Theorem X20_thumbnail_upload_failure env cfg req w e w' :
  Thumbnails.handlerUploadThumbnail env cfg req w = (Thrown e, w') ->
  db w' = db w /\ bucket w' = bucket w /\
  ((forall k, e <> IoError (DbUpdate k)) -> w' = w) /\
  (forall k, e = IoError (DbUpdate k) ->
     exists (f : FileField) (path : string),
       form req !! "thumbnail" = Some (FormFile f) /\
       videoThumbnails w' !! randomName env =
         Some {| data := file_data f; mediaType := file_type f |} /\
       disk w' !! path = Some (file_data f)).
Proof.
  intros H. run H.
  all: injection H as <- <-; cbn [db disk bucket videoThumbnails].
  all: split_and!; try reflexivity.
  all: try (intros Hk; try reflexivity; exfalso; eapply Hk; reflexivity).
  all: try (intros k Hk; discriminate Hk).
  all: intros k Hk.
  all: eexists _, _; split; [reflexivity |].
  all: split; apply lookup_insert_eq.
Qed.

Lemma X20_thumbnail_upload_failure_witness :
  db (Thumbnails.handlerUploadThumbnail Scenarios.env_no_db Fixture.cfg
        Fixture.thumbnail_upload Fixture.world0).2 = db Fixture.world0 /\
  exists (f : FileField) (path : string),
    form Fixture.thumbnail_upload !! "thumbnail" = Some (FormFile f) /\
    videoThumbnails
      (Thumbnails.handlerUploadThumbnail Scenarios.env_no_db Fixture.cfg
         Fixture.thumbnail_upload Fixture.world0).2
      !! randomName Scenarios.env_no_db =
      Some {| data := file_data f; mediaType := file_type f |} /\
    disk (Thumbnails.handlerUploadThumbnail Scenarios.env_no_db Fixture.cfg
            Fixture.thumbnail_upload Fixture.world0).2 !! path =
      Some (file_data f).
Proof.
  destruct (X20_thumbnail_upload_failure Scenarios.env_no_db Fixture.cfg
              Fixture.thumbnail_upload Fixture.world0
              (IoError (DbUpdate "vid-1"))
              (Thumbnails.handlerUploadThumbnail Scenarios.env_no_db
                 Fixture.cfg Fixture.thumbnail_upload Fixture.world0).2)
    as (Hdb & _ & _ & Hmap).
  - apply pair_eta. vm_compute. reflexivity.
  - split; [exact Hdb |]. exact (Hmap "vid-1" eq_refl).
Defined.

(** X21: [handlerGetThumbnail] never changes the world and asks for no
    credential.  It returns exactly when the request carries a
    non-empty video identifier, the record store holds that video and
    the thumbnail map holds an entry under that identifier; the
    response then carries the bytes of the entry, its media type as
    Content-Type, and Cache-Control: no-store. *)
Theorem X21_get_thumbnail cfg req w r :
  (forall o w', Thumbnails.handlerGetThumbnail cfg req w = (o, w') -> w' = w)
  /\
  (Thumbnails.handlerGetThumbnail cfg req w = (Returned r, w) <->
   exists videoId (row : VideoRow) (t : Thumbnail),
     param_videoId req = Some videoId /\ videoId <> "" /\
     db w !! videoId = Some row /\
     videoThumbnails w !! videoId = Some t /\
     r = RawResponse (data t)
           [("Content-Type", mediaType t); ("Cache-Control", "no-store")]).
Proof.
  split; [| split].
  - intros o w' H. run H; injection H as <- <-; reflexivity.
  - intros H. run H. injection H as <-. settle. eauto 10.
  - intros (v & row & t & Hp & Hne & Hrow & Ht & ->).
    apply String.eqb_neq in Hne.
    destruct (Thumbnails.handlerGetThumbnail cfg req w) as [o w'] eqn:H.
    run H; try (injection H as <- <-; simplify_eq; reflexivity).
Qed.

Lemma X21_get_thumbnail_witness :
  Thumbnails.handlerGetThumbnail Fixture.cfg Fixture.thumbnail_get
    Scenarios.world_with_thumbnail =
    (Returned (RawResponse (file_data Fixture.png)
                 [("Content-Type", "image/png");
                  ("Cache-Control", "no-store")]),
     Scenarios.world_with_thumbnail).
Proof.
  apply (proj2 (X21_get_thumbnail Fixture.cfg Fixture.thumbnail_get
                  Scenarios.world_with_thumbnail _)).
  exists "vid-1", Fixture.video1,
    {| data := file_data Fixture.png; mediaType := "image/png" |}.
  split_and!; try reflexivity. discriminate.
Defined.

(** X22: an authenticated thumbnail upload with a file field in order
    is answered with the not-found error when the record store does not
    hold the video, and with the forbidden error when the video belongs
    to another user; in both cases nothing has changed. *)
Theorem X22_thumbnail_ownership env cfg req w (videoId token user : string)
    (f : FileField) :
  param_videoId req = Some videoId -> videoId <> "" ->
  getBearerToken env (authorization req) = Some token ->
  validateJWT env token (jwtSecret cfg) = Some user ->
  form req !! "thumbnail" = Some (FormFile f) ->
  (file_size f <= 10485760)%Z ->
  file_type f = "image/jpeg" \/ file_type f = "image/png" ->
  (db w !! videoId = None ->
   Thumbnails.handlerUploadThumbnail env cfg req w =
     (Thrown (NotFoundError "Couldn't find video"), w)) /\
  (forall row : VideoRow,
      db w !! videoId = Some row -> row_userID row <> user ->
      Thumbnails.handlerUploadThumbnail env cfg req w =
        (Thrown (UserForbiddenError "Not authorized to update this video"),
         w)).
Proof.
  intros Hp Hne Htok Hjwt Hform Hsize Htype. apply String.eqb_neq in Hne.
  assert (negb (Thumbnails.MAX_UPLOAD_SIZE <? file_size f)%Z = true) as Hz.
  { apply negb_true_iff, Z.ltb_ge. exact Hsize. }
  assert (negb (negb (file_type f =? "image/jpeg")%string
                && negb (file_type f =? "image/png")%string) = true) as Ht.
  { destruct Htype as [-> | ->]; reflexivity. }
  split.
  - intros Hrow.
    destruct (Thumbnails.handlerUploadThumbnail env cfg req w) as [o w']
      eqn:Hrun.
    run Hrun. all: injection Hrun as <- <-; reflexivity.
  - intros row Hrow Hown. apply String.eqb_neq in Hown.
    destruct (Thumbnails.handlerUploadThumbnail env cfg req w) as [o w']
      eqn:Hrun.
    run Hrun. all: injection Hrun as <- <-; reflexivity.
Qed.

Lemma X22_thumbnail_ownership_witness :
  Thumbnails.handlerUploadThumbnail Fixture.env Fixture.cfg
    (Scenarios.thumbnail_by "token-of-bob" Fixture.png) Fixture.world0 =
    (Thrown (UserForbiddenError "Not authorized to update this video"),
     Fixture.world0).
Proof.
  refine (proj2 (X22_thumbnail_ownership Fixture.env Fixture.cfg
                   (Scenarios.thumbnail_by "token-of-bob" Fixture.png)
                   Fixture.world0 "vid-1" "token-of-bob" "bob" Fixture.png
                   eq_refl _ eq_refl eq_refl eq_refl _ _)
            Fixture.video1 eq_refl _).
  - discriminate.
  - vm_compute. discriminate.
  - right. reflexivity.
  - discriminate.
Defined.
